(** * DeviceDetect: hotplug detection and keyboard-task lifecycle

    A shallow embedding of [src/DeviceDetect.cc].  Text handling
    ([get_event_id], [device_state]) is embedded as pure functions on
    [string]; [size_t] arithmetic is carried out in [Z] with its 64-bit
    wrap-around written out.  The code talking to the system ([popen],
    [fgets], [select], [recv], threads) is embedded in a small state and
    fault monad whose state holds the vector [all_threads] and the
    chronological trace of the calls the program makes. *)

From Stdlib Require Import ZArith List Bool Ascii String Lia.
Import ListNotations.
Open Scope string_scope.
Open Scope Z_scope.

(** ** [std::string] with [size_t] positions *)

Module StdString.

Definition size_max : Z := 2 ^ 64.

(** [std::string::npos], the largest [size_t]. *)
Definition npos : Z := size_max - 1.

(** Unsigned 64-bit subtraction and addition. *)
Definition usub (a b : Z) : Z := (a - b) mod size_max.
Definition uadd (a b : Z) : Z := (a + b) mod size_max.

Definition size (s : string) : Z := Z.of_nat (String.length s).

Definition empty (s : string) : bool :=
  match s with EmptyString => true | String _ _ => false end.

(** [s.find(pat, pos)]: position of the first occurrence of [pat] in [s]
    at or after [pos], [npos] when there is none. *)
Definition find (s pat : string) (pos : Z) : Z :=
  match String.index (Z.to_nat pos) pat s with
  | Some i => Z.of_nat i
  | None => npos
  end.

(** [s.substr(pos, count)]: throws [std::out_of_range] ([None]) when
    [pos > size()], otherwise the characters from [pos], at most [count] of
    them and never past the end. *)
Definition substr (s : string) (pos count : Z) : option string :=
  if size s <? pos then None
  else Some (String.substring (Z.to_nat pos) (Z.to_nat count) s).

(** [s.erase(index)] with the default count [npos]: throws
    [std::out_of_range] ([None]) when [index > size()], otherwise keeps the
    first [index] characters. *)
Definition erase (s : string) (index : Z) : option string :=
  if size s <? index then None
  else Some (String.substring 0 (Z.to_nat index) s).

(** Conversion of a zero-terminated [char] array to [std::string]: the
    characters before the first NUL. *)
Fixpoint c_str (raw : string) : string :=
  match raw with
  | EmptyString => EmptyString
  | String c rest =>
      if Ascii.eqb c zero then EmptyString else String c (c_str rest)
  end.

End StdString.
Import StdString.

(** ** Event-id extraction and action classification *)

(** [get_event_id], lines 92-104. *)
Definition get_event_id (buf : string) : option string :=
  let pos := find buf "event" 0 in
  if pos =? npos then Some ""
  else
    let pos_stop := find buf "/" pos in
    let pos_stop := if pos_stop =? npos then size buf else pos_stop in
    substr buf (uadd pos 5) (usub (usub pos_stop pos) 1).

(** [device_state], lines 107-111. *)
Definition device_state (str : string) : Z :=
  if find str "add" 0 =? 0 then 1
  else if find str "remove" 0 =? 0 then -1
  else 0.

(** ** Pipes opened with [popen] *)

Module Stdio.

(** A pipe being read: what the command has still to deliver, and the
    end-of-file indicator of the stream. *)
Record FILE := mkFile { data : string; eof : bool }.

Definition newline : ascii := "010"%char.

(** Reads at most [k] characters and stops after a newline.  The third
    component tells that the end of the pipe was hit while reading. *)
Fixpoint read_line (k : nat) (s : string) : string * string * bool :=
  match k with
  | O => (EmptyString, s, false)
  | S k' =>
      match s with
      | EmptyString => (EmptyString, EmptyString, true)
      | String c s' =>
          if Ascii.eqb c newline then (String c EmptyString, s', false)
          else
            let '(l, r, e) := read_line k' s' in (String c l, r, e)
      end
  end.

(** [fgets(buf, n, f)]: [None] is the null pointer, returned when no
    character could be read before the end of the pipe. *)
Definition fgets (n : nat) (f : FILE) : option string * FILE :=
  match data f with
  | EmptyString => (None, mkFile EmptyString true)
  | String _ _ =>
      let '(l, r, e) := read_line (n - 1) (data f) in
      (Some l, mkFile r (eof f || e))
  end.

End Stdio.
Import Stdio.

(** ** Program state, trace and faults *)

(** A [FILE *] as the program sees it. *)
Inductive handle := NullHandle | OpenPipe.

(** The calls to the system and to the key-detection module that the
    program makes, in the order it makes them. *)
Inductive event :=
| Popen (cmd : string) (h : handle)
| Cout (msg : string)
| Feof (h : handle)
| Fgets (h : handle)
| Pclose (h : handle)
| Spawn (id : string)
| Socket (fd : Z)
| Bind (ret : Z)
| Select
| Recv
| DelEventId (id : string)
| ClearAll
| Close (fd : Z)
| Join (id : string).

(** Ways the process dies: a null stream handed to stdio, an uncaught
    [std::out_of_range], a [char] array read past its end.
    [FuelExhausted] is the bound of the enumeration loop of the model. *)
Inductive fault := NullStream | OutOfRange | BufferOverrun | FuelExhausted.

Inductive result (A : Type) :=
| Ok (a : A)
| Crash (f : fault).
Arguments Ok {A} a.
Arguments Crash {A} f.

(** Modelled from the spec: the registry of [KeyDetect] is missing.  A
    thread of [all_threads] is kept with the event id [key_detect] was given
    and with [live], which tells that its task is registered: it was started
    and has not been told to stop. *)
Record MonitoringTask := mkTask { task_id : string; live : bool }.

Record State := mkState {
  all_threads : list MonitoringTask;
  trace : list event
}.

Definition init_state : State := mkState [] [].

Definition M (A : Type) : Type := State -> result A * State.

Definition ret {A} (a : A) : M A := fun st => (Ok a, st).

Definition bind {A B} (m : M A) (k : A -> M B) : M B :=
  fun st =>
    match m st with
    | (Ok a, st') => k a st'
    | (Crash f, st') => (Crash f, st')
    end.

Definition throw {A} (f : fault) : M A := fun st => (Crash f, st).

Definition emit (e : event) : M unit :=
  fun st => (Ok tt, mkState (all_threads st) (trace st ++ [e])).

Definition or_throw {A} (o : option A) : M A :=
  match o with
  | Some a => ret a
  | None => throw OutOfRange
  end.

Notation "x <- m ;; k" := (bind m (fun x => k))
  (at level 61, m at next level, right associativity).
Notation "m ;; k" := (bind m (fun _ => k))
  (at level 61, right associativity).

Definition exec {A} (m : M A) (st : State) : State := snd (m st).
Definition outcome {A} (m : M A) (st : State) : result A := fst (m st).

Definition cout (msg : string) : M unit := emit (Cout msg).

(** ** The key-detection registry *)

Definition is_live_for (id : string) (t : MonitoringTask) : bool :=
  live t && String.eqb (task_id t) id.

(** Number of live monitoring tasks bound to [id]. *)
Definition live_tasks (id : string) (st : State) : nat :=
  List.length (filter (is_live_for id) (all_threads st)).

(** Modelled from the spec: [event_id_exists] of [KeyDetect] is missing;
    it is true iff a live task is registered for [id]. *)
Definition event_id_exists (id : string) : M bool :=
  fun st => (Ok (existsb (is_live_for id) (all_threads st)), st).

Definition cancel (id : string) (t : MonitoringTask) : MonitoringTask :=
  if String.eqb (task_id t) id then mkTask (task_id t) false else t.

(** Modelled from the spec: [del_event_id] of [KeyDetect] is missing; it
    signals the task registered for [id] to stop and removes it from the
    live set, without waiting for it. *)
Definition del_event_id (id : string) : M unit :=
  fun st =>
    (Ok tt, mkState (map (cancel id) (all_threads st))
                    (trace st ++ [DelEventId id])).

(** Modelled from the spec: [clear_all_key_detect_threads] of [KeyDetect]
    is missing; it signals every registered task to stop. *)
Definition clear_all_key_detect_threads : M unit :=
  fun st =>
    (Ok tt, mkState (map (fun t => mkTask (task_id t) false) (all_threads st))
                    (trace st ++ [ClearAll])).

(** Modelled from the spec: [key_detect] is missing; the task it runs is
    recorded as live for [id] from the moment it is started.  The rest is
    [all_threads.push_back(std::thread(key_detect, id, audio, mixer))]. *)
Definition spawn (id : string) : M unit :=
  fun st =>
    (Ok tt, mkState (all_threads st ++ [mkTask id true])
                    (trace st ++ [Spawn id])).

(** ** The program *)

Definition UEVENT_BUFFER_SIZE : nat := 512.

Definition cmd1 : string :=
  "grep -E 'Handlers|EV=' /proc/bus/input/devices | grep -B1 'EV=1[2]001' | grep -Eo 'event[0-9]+'".
Definition cmd2 : string :=
  "grep -B2 'EV=1[2]001[3Ff]' /proc/bus/input/devices | grep event".

(** [is_keyboard], lines 46-63.  [probe] is what [popen] answers: [None]
    for the null handle, otherwise the output of the command. *)
Definition is_keyboard (probe : option string) (event_id : string) : M bool :=
  if empty event_id then ret false
  else
    match probe with
    | None =>
        emit (Popen (cmd2 ++ event_id) NullHandle);;
        cout "error occured";;
        ret false
    | Some out =>
        emit (Popen (cmd2 ++ event_id) OpenPipe);;
        let (tmp, pip) := fgets 8 (mkFile out false) in
        emit (Fgets OpenPipe);;
        emit (Pclose OpenPipe);;
        match tmp with
        | Some _ => ret true
        | None => ret false
        end
    end.

(** [init_socket], lines 66-89, with the results of [socket] and [bind]. *)
Definition init_socket (socket_ret bind_ret : Z) : M Z :=
  emit (Socket socket_ret);;
  if socket_ret <? 0 then
    cout "init socket error";; ret (-1)
  else
    emit (Bind bind_ret);;
    if bind_ret <? 0 then
      cout "init socket bind error occured";;
      emit (Close socket_ret);;
      ret (-1)
    else ret socket_ret.

(** The [while (!feof(pip))] loop of [start_exists_device], lines
    122-130.  [pip] is [None] for the null handle. *)
Fixpoint enum_loop (fuel : nat) (pip : option FILE) : M unit :=
  match fuel with
  | O => throw FuelExhausted
  | S fuel' =>
      match pip with
      | None => emit (Feof NullHandle);; throw NullStream
      | Some f =>
          emit (Feof OpenPipe);;
          if eof f then ret tt
          else
            let (line, f') := fgets 64 f in
            emit (Fgets OpenPipe);;
            match line with
            | Some buf =>
                str_event_id <- or_throw (get_event_id (c_str buf));;
                str_event_id <- or_throw
                  (erase str_event_id (usub (size str_event_id) 1));;
                spawn str_event_id;;
                enum_loop fuel' (Some f')
            | None => enum_loop fuel' (Some f')
            end
      end
  end.

(** Iterations that the loop can need on a pipe holding [out]. *)
Definition enum_fuel (out : string) : nat := String.length out + 2.

(** [start_exists_device], lines 113-133.  [enum] is what [popen(cmd1)]
    answers: [None] for the null handle, otherwise the output of the
    command. *)
Definition start_exists_device (enum : option string) : M unit :=
  match enum with
  | None =>
      emit (Popen cmd1 NullHandle);;
      cout "error occured";;
      enum_loop 1 None;;
      emit (Pclose NullHandle)
  | Some out =>
      emit (Popen cmd1 OpenPipe);;
      enum_loop (enum_fuel out) (Some (mkFile out false));;
      emit (Pclose OpenPipe)
  end.

(** One turn of the listening loop as the system answers it: the result of
    [select], whether the socket is in the returned set, what [recv]
    delivered ([None] when it returned no byte), and what [popen] answers
    should the classifier be asked. *)
Record Tick := mkTick {
  select_ret : Z;
  fd_isset : bool;
  received : option string;
  probe : option string
}.

(** The zeroed array [buf] after [recv] stored [bytes], read as a C string.
    With no NUL among its [UEVENT_BUFFER_SIZE] bytes the read runs past the
    array. *)
Definition uevent_string (bytes : string) : M string :=
  let filled := c_str (String.substring 0 UEVENT_BUFFER_SIZE bytes) in
  if (String.length filled <? UEVENT_BUFFER_SIZE)%nat then ret filled
  else throw BufferOverrun.

(** The body of the [recv] branch of [device_detect], lines 165-198. *)
Definition on_uevent (probe : option string) (buf : string) : M unit :=
  str_event_id <- or_throw (get_event_id buf);;
  let state := device_state buf in
  if state =? 1 then
    known <- event_id_exists str_event_id;;
    if known then ret tt
    else
      keyboard <- is_keyboard probe str_event_id;;
      if keyboard then spawn str_event_id else ret tt
  else if state =? -1 then
    known <- event_id_exists str_event_id;;
    if known then del_event_id str_event_id else ret tt
  else ret tt.

(** The [while (detect)] loop of [device_detect], lines 153-200: one
    [Tick] for each turn taken before [stop_detect] is observed. *)
Fixpoint listen (ticks : list Tick) : M unit :=
  match ticks with
  | [] => ret tt
  | t :: rest =>
      emit Select;;
      if select_ret t <? 0 then listen rest
      else if negb ((0 <? select_ret t) && fd_isset t) then listen rest
      else
        emit Recv;;
        match received t with
        | Some bytes =>
            buf <- uevent_string bytes;;
            on_uevent (probe t) buf;;
            listen rest
        | None => listen rest
        end
  end.

(** The closing loop of [device_detect], lines 206-208. *)
Definition join_all : M unit :=
  fun st =>
    (Ok tt, mkState (all_threads st)
                    (trace st ++ map (fun t => Join (task_id t)) (all_threads st))).

(** [device_detect], lines 136-209. *)
Definition device_detect (enum : option string) (socket_ret bind_ret : Z)
    (ticks : list Tick) : M unit :=
  start_exists_device enum;;
  sock_fd <- init_socket socket_ret bind_ret;;
  if sock_fd <? 0 then cout "init error"
  else
    listen ticks;;
    clear_all_key_detect_threads;;
    (if 0 <? sock_fd then emit (Close sock_fd) else ret tt);;
    join_all.

(** ** What the enumeration command prints *)

Definition is_digit (c : ascii) : bool :=
  let n := nat_of_ascii c in ((48 <=? n) && (n <=? 57))%nat.

Fixpoint all_digits (s : string) : bool :=
  match s with
  | EmptyString => true
  | String c s' => is_digit c && all_digits s'
  end.

(** The character [a] does not occur in [s]. *)
Fixpoint avoids (a : ascii) (s : string) : bool :=
  match s with
  | EmptyString => true
  | String c s' => negb (Ascii.eqb c a) && avoids a s'
  end.

(** A device number as [grep -Eo 'event[0-9]+'] can print it after
    [event]: one decimal digit or more, short enough for the line to fit the
    64-byte array of [start_exists_device]. *)
Definition device_number (d : string) : bool :=
  negb (empty d) && all_digits d && (String.length d <=? 57)%nat.

(** The line printed for device number [d]. *)
Definition grep_line (d : string) : string :=
  "event" ++ d ++ String newline EmptyString.

(** The output of [cmd1] when the devices numbered [ds] match. *)
Fixpoint grep_output (ds : list string) : string :=
  match ds with
  | [] => EmptyString
  | d :: rest => grep_line d ++ grep_output rest
  end.

(** The state of a run that enumerated the devices [ds] and then took the
    turns [ticks] of the listening loop. *)
Definition listening_state (ds : list string) (ticks : list Tick) : State :=
  exec (start_exists_device (Some (grep_output ds));; listen ticks) init_state.

(** A device number of 58 digits: with [event] before it and the newline
    behind it, its line is one character longer than [fgets] can read into
    the 64-byte array at once. *)
Definition long_device_number : string :=
  "1234567890123456789012345678901234567890123456789012345678".

(** ** Properties of runs *)

(** [m] preserves the property [I] of the thread vector, however it ends. *)
Definition keeps (I : list MonitoringTask -> Prop) {A} (m : M A) : Prop :=
  forall st, I (all_threads st) -> I (all_threads (exec m st)).

(** [m] only appends to the trace, and only events satisfying [P]. *)
Definition emits_only (P : event -> Prop) {A} (m : M A) : Prop :=
  forall st, exists tr, trace (exec m st) = (trace st ++ tr)%list /\ Forall P tr.

(** At most one live task for each event id. *)
Definition at_most_one (ths : list MonitoringTask) : Prop :=
  forall id, (List.length (filter (is_live_for id) ths) <= 1)%nat.

(** No task is bound to the empty identifier. *)
Definition no_blank (ths : list MonitoringTask) : Prop :=
  Forall (fun t => task_id t <> "") ths.

(** The classifier could not read a capability line: [popen] gave the null
    handle, or [fgets] gave the null pointer. *)
Definition probe_failed (probe : option string) : bool :=
  match probe with
  | None => true
  | Some out =>
      match fst (fgets 8 (mkFile out false)) with
      | None => true
      | Some _ => false
      end
  end.

(** The events of the enumeration loop on the lines of the devices [ds]. *)
Definition enum_events (ds : list string) : list event :=
  flat_map (fun d => [Feof OpenPipe; Fgets OpenPipe; Spawn d]) ds.

Definition is_poll (e : event) : bool :=
  match e with
  | Select | Recv => true
  | _ => false
  end.

Definition is_shutdown (e : event) : bool :=
  match e with
  | ClearAll | Close _ | Join _ => true
  | _ => false
  end.

(** Events of the enumeration: no polling, no shutdown call. *)
Definition startup_event (e : event) : Prop :=
  is_poll e = false /\ is_shutdown e = false.

(** Events of the listening loop: no shutdown call, and the enumeration
    command is not run again. *)
Definition listener_event (e : event) : Prop :=
  is_shutdown e = false /\ forall h, e <> Popen cmd1 h.

Fixpoint first_index (p : event -> bool) (tr : list event) : option nat :=
  match tr with
  | [] => None
  | e :: rest =>
      if p e then Some 0%nat
      else match first_index p rest with
           | Some i => Some (S i)
           | None => None
           end
  end.

Definition is_close (e : event) : bool :=
  match e with Close _ => true | _ => false end.

Definition is_clear_all (e : event) : bool :=
  match e with ClearAll => true | _ => false end.

(** The channel is closed, and closed before the tasks are first told to
    stop. *)
Definition closes_before_cancelling (tr : list event) : Prop :=
  match first_index is_close tr, first_index is_clear_all tr with
  | Some i, Some j => (i < j)%nat
  | _, _ => False
  end.

(** ** Further notions on runs *)

(** A turn on which the loop goes back to its head without calling
    [recv]: [select] failed, timed out, or left the socket out of the set. *)
Definition idle (t : Tick) : bool :=
  (select_ret t <? 0) || negb ((0 <? select_ret t) && fd_isset t).

(** The event ids of the threads started, in the order of the trace. *)
Fixpoint started (tr : list event) : list string :=
  match tr with
  | [] => []
  | Spawn id :: rest => id :: started rest
  | _ :: rest => started rest
  end.

(** The event ids of the threads joined, in the order of the trace. *)
Fixpoint joined (tr : list event) : list string :=
  match tr with
  | [] => []
  | Join id :: rest => id :: joined rest
  | _ :: rest => joined rest
  end.

(** [m] preserves the property [J] of the state, however it ends. *)
Definition preserves (J : State -> Prop) {A} (m : M A) : Prop :=
  forall st, J st -> J (exec m st).

(** The thread vector holds the threads started so far, in the order they
    were started. *)
Definition recorded (st : State) : Prop :=
  started (trace st) = map task_id (all_threads st).

(** Every pipe opened in the trace is closed before the next call to
    [popen], and [pclose] is called on open pipes only. *)
Fixpoint pipes_closed (open : bool) (tr : list event) : bool :=
  match tr with
  | [] => negb open
  | Popen _ OpenPipe :: rest => negb open && pipes_closed true rest
  | Popen _ NullHandle :: rest => negb open && pipes_closed false rest
  | Pclose OpenPipe :: rest => open && pipes_closed false rest
  | Pclose NullHandle :: rest => false
  | _ :: rest => pipes_closed open rest
  end.

(** ** Examples *)

Example get_event_id_plain :
  get_event_id "add@/devices/platform/i8042/serio0/input/input9/event3" = Some "3".
Proof. reflexivity. Qed.

Example get_event_id_line :
  get_event_id ("event12" ++ String "010" "") = Some ("12" ++ String "010" "").
Proof. reflexivity. Qed.

Example device_state_add : device_state "add@/devices/x" = 1.
Proof. reflexivity. Qed.

Example device_state_remove : device_state "remove@/devices/x" = -1.
Proof. reflexivity. Qed.

Example device_state_other : device_state "change@/devices/x" = 0.
Proof. reflexivity. Qed.

(** ** Facts on strings and positions *)

Lemma size_max_value : size_max = 18446744073709551616.
Proof. reflexivity. Qed.

Lemma npos_value : npos = 18446744073709551615.
Proof. reflexivity. Qed.

(** Unsigned arithmetic on values that stay in range. *)
Ltac no_wrap :=
  unfold usub, uadd; rewrite size_max_value;
  repeat match goal with
         | |- context [?a mod 18446744073709551616] =>
             rewrite (Z.mod_small a 18446744073709551616) by lia
         end.

Lemma prefix_nil (s : string) : prefix "" s = true.
Proof. destruct s; reflexivity. Qed.

Lemma prefix_cons (a b : ascii) (p s : string) :
  prefix (String a p) (String b s) = if Ascii.eqb a b then prefix p s else false.
Proof.
  cbn [prefix]. destruct (ascii_dec a b) as [->|N].
  - now rewrite Ascii.eqb_refl.
  - apply Ascii.eqb_neq in N. now rewrite N.
Qed.

Lemma substring_length_le (s : string) :
  forall n m, (n + String.length (substring n m s) <= Nat.max n (String.length s))%nat.
Proof.
  induction s as [|c s IH]; intros [|n] [|m]; simpl; try lia.
  - specialize (IH 0%nat m). lia.
  - specialize (IH n 0%nat). lia.
  - specialize (IH n (S m)). lia.
Qed.

Lemma substring_all (s : string) :
  forall m, (String.length s <= m)%nat -> substring 0 m s = s.
Proof.
  induction s as [|c s IH]; intros [|m] H; simpl in *; try reflexivity; try lia.
  rewrite IH by lia. reflexivity.
Qed.

Lemma substring_app_prefix (s t : string) :
  substring 0 (String.length s) (s ++ t) = s.
Proof.
  induction s as [|c s IH]; simpl.
  - destruct t; reflexivity.
  - now rewrite IH.
Qed.

Lemma length_append (s t : string) :
  String.length (s ++ t) = (String.length s + String.length t)%nat.
Proof. induction s; simpl; congruence. Qed.

(** An occurrence reported by [index] lies inside the string. *)
Lemma index_in_range (pat s : string) (n i : nat) :
  String.index n pat s = Some i ->
  (i + String.length pat <= Nat.max i (String.length s))%nat.
Proof.
  intros H. apply index_correct1 in H.
  pose proof (substring_length_le s i (String.length pat)) as L.
  rewrite H in L. exact L.
Qed.

Lemma index_from_le (pat s : string) :
  forall n i, String.index n pat s = Some i -> (n <= i)%nat.
Proof.
  induction s as [|c s IH]; intros [|n] i H; simpl in H; try lia; try discriminate.
  destruct (String.index n pat s) as [j|] eqn:E; [|discriminate].
  injection H as <-. apply IH in E. lia.
Qed.

(** [find] answers position 0 exactly for a prefix. *)
Lemma find_zero_iff_prefix (s pat : string) :
  pat <> "" -> (find s pat 0 = 0 <-> prefix pat s = true).
Proof.
  intros Hpat. unfold find. change (Z.to_nat 0) with 0%nat.
  destruct s as [|c s].
  - destruct pat as [|a pat]; [congruence|]. simpl.
    rewrite npos_value. split; [lia | discriminate].
  - cbn [String.index]. destruct (prefix pat (String c s)).
    + split; reflexivity.
    + destruct (String.index 0 pat s); [|rewrite npos_value]; split;
        try discriminate; lia.
Qed.

Lemma find_found_bounds (s pat : string) (pos : Z) :
  find s pat pos <> npos -> String.length pat <> 0%nat ->
  exists i, String.index (Z.to_nat pos) pat s = Some i /\
            find s pat pos = Z.of_nat i /\
            (Z.to_nat pos <= i)%nat /\
            (i + String.length pat <= String.length s)%nat.
Proof.
  unfold find. intros H Hpat.
  destruct (String.index (Z.to_nat pos) pat s) as [i|] eqn:E; [|congruence].
  exists i. split; [reflexivity|]. split; [reflexivity|].
  pose proof (index_from_le _ _ _ _ E).
  pose proof (index_in_range _ _ _ _ E). lia.
Qed.

(** ** [get_event_id] *)

(** [substr] never throws in [get_event_id]: the function returns a string
    on every buffer. *)
Lemma get_event_id_total (buf : string) : exists id, get_event_id buf = Some id.
Proof.
  unfold get_event_id.
  destruct (find buf "event" 0 =? npos) eqn:E; [eauto|].
  apply Z.eqb_neq in E.
  destruct (find_found_bounds buf "event" 0 E) as (i & _ & -> & _ & Hi);
    [simpl; lia|]. simpl in Hi.
  unfold substr.
  assert (H : uadd (Z.of_nat i) 5 <= size buf).
  { unfold uadd, size. rewrite size_max_value.
    pose proof (Z.mod_le (Z.of_nat i + 5) 18446744073709551616). lia. }
  apply Z.ltb_ge in H. rewrite H. eauto.
Qed.

(** The characters of the token are no separators, so the separator found
    from [pos] lies behind the token. *)
Lemma separator_behind_token (buf : string) (i j : nat) :
  String.index 0 "event" buf = Some i -> String.index i "/" buf = Some j ->
  (i + 5 <= j)%nat.
Proof.
  intros Hi Hj. pose proof (index_from_le _ _ _ _ Hj) as L.
  apply index_correct1 in Hi. apply index_correct1 in Hj.
  cbn [String.length] in Hi, Hj.
  destruct (Nat.lt_ge_cases j (i + 5)) as [C|C]; [exfalso | exact C].
  assert (G : get (j - i) "event" = get 0 "/").
  { rewrite <- Hi at 1. rewrite <- Hj.
    rewrite !substring_correct1 by lia. f_equal. lia. }
  assert (K : (j - i = 0 \/ j - i = 1 \/ j - i = 2 \/ j - i = 3 \/ j - i = 4)%nat)
    by lia.
  destruct K as [K|[K|[K|[K|K]]]]; rewrite K in G; discriminate.
Qed.

(** On a buffer that holds the token, neither [pos + 5] nor
    [pos_stop - pos - 1] wraps: the result is the text from the end of the
    token, [pos_stop - pos - 1] characters long unless the buffer ends
    before. *)
Lemma get_event_id_value (buf : string) (i : nat) :
  size buf < npos ->
  String.index 0 "event" buf = Some i ->
  let stop := match String.index i "/" buf with
              | Some j => j
              | None => String.length buf
              end in
  (i + 5 <= stop <= String.length buf)%nat /\
  get_event_id buf = Some (substring (i + 5) (stop - i - 1) buf).
Proof.
  intros Hsz Hi stop.
  pose proof (index_in_range _ _ _ _ Hi) as Ri. cbn [String.length] in Ri.
  assert (B : (i + 5 <= stop <= String.length buf)%nat).
  { subst stop. destruct (String.index i "/" buf) as [j|] eqn:Hj; [|lia].
    pose proof (separator_behind_token buf i j Hi Hj).
    pose proof (index_in_range _ _ _ _ Hj) as Rj. cbn [String.length] in Rj. lia. }
  split; [exact B|].
  unfold size in Hsz. rewrite npos_value in Hsz.
  unfold get_event_id, find. change (Z.to_nat 0) with 0%nat. rewrite Hi.
  rewrite npos_value.
  replace (Z.of_nat i =? 18446744073709551615) with false
    by (symmetry; apply Z.eqb_neq; lia).
  rewrite Nat2Z.id.
  assert (E : (if match String.index i "/" buf with
                  | Some i0 => Z.of_nat i0
                  | None => 18446744073709551615
                  end =? 18446744073709551615
               then size buf
               else match String.index i "/" buf with
                    | Some i0 => Z.of_nat i0
                    | None => 18446744073709551615
                    end) = Z.of_nat stop).
  { subst stop. destruct (String.index i "/" buf) as [j|].
    - replace (Z.of_nat j =? 18446744073709551615) with false
        by (symmetry; apply Z.eqb_neq; lia). reflexivity.
    - reflexivity. }
  rewrite E. unfold substr, size. no_wrap.
  replace (Z.of_nat (String.length buf) <? Z.of_nat i + 5) with false
    by (symmetry; apply Z.ltb_ge; lia).
  f_equal. f_equal; lia.
Qed.

Lemma substring_length (s : string) :
  forall n m,
    String.length (substring n m s) = Nat.min m (String.length s - n).
Proof.
  induction s as [|c s IH]; intros [|n] [|m]; simpl; try reflexivity.
  - now rewrite IH, Nat.sub_0_r.
  - now rewrite IH.
  - now rewrite IH.
Qed.

(** With a separator behind the token and four characters or more behind
    the separator, the identifier returned is four characters longer than
    the text between the token and the separator. *)
Lemma get_event_id_overshoot (buf : string) (i j : nat) :
  size buf < npos ->
  String.index 0 "event" buf = Some i -> String.index i "/" buf = Some j ->
  (j + 4 <= String.length buf)%nat ->
  exists id, get_event_id buf = Some id /\
             String.length id = (j - (i + 5) + 4)%nat.
Proof.
  intros Hsz Hi Hj Hl.
  destruct (get_event_id_value buf i Hsz Hi) as [B E].
  rewrite Hj in B, E. eexists. split; [exact E|].
  rewrite substring_length. lia.
Qed.

Lemma get_event_id_no_token (buf : string) :
  (forall i, substring i 5 buf <> "event") -> get_event_id buf = Some "".
Proof.
  intros H. unfold get_event_id, find.
  destruct (String.index (Z.to_nat 0) "event" buf) as [i|] eqn:E.
  - apply index_correct1 in E. simpl in E. now apply H in E.
  - reflexivity.
Qed.

(** ** [device_state] *)

Lemma device_state_cases (buf : string) :
  (device_state buf = 1 <-> prefix "add" buf = true) /\
  (device_state buf = -1 <-> prefix "remove" buf = true) /\
  (device_state buf = 0 <->
     prefix "add" buf = false /\ prefix "remove" buf = false).
Proof.
  assert (Ha : "add" <> "") by discriminate.
  assert (Hr : "remove" <> "") by discriminate.
  pose proof (find_zero_iff_prefix buf "add" Ha) as A.
  pose proof (find_zero_iff_prefix buf "remove" Hr) as R.
  assert (X : prefix "add" buf = true -> prefix "remove" buf = true -> False).
  { destruct buf as [|c buf]; [discriminate|].
    rewrite !prefix_cons.
    destruct (Ascii.eqb_spec "a" c) as [<-|]; [|discriminate].
    discriminate. }
  assert (EA : (find buf "add" 0 =? 0) = prefix "add" buf).
  { apply eq_true_iff_eq. rewrite Z.eqb_eq. exact A. }
  assert (ER : (find buf "remove" 0 =? 0) = prefix "remove" buf).
  { apply eq_true_iff_eq. rewrite Z.eqb_eq. exact R. }
  unfold device_state. rewrite EA, ER.
  destruct (prefix "add" buf); destruct (prefix "remove" buf);
    try (exfalso; now apply X);
    repeat split; intros; try lia; try congruence; intuition congruence.
Qed.

(** ** Reasoning on runs *)

Lemma exec_bind {A B} (m : M A) (k : A -> M B) (st : State) :
  exec (bind m k) st =
  match m st with
  | (Ok a, st') => exec (k a) st'
  | (Crash _, st') => st'
  end.
Proof. unfold exec, bind. destruct (m st) as [[a|f] st']; reflexivity. Qed.

Section Keeps.
Variable I : list MonitoringTask -> Prop.

Lemma keeps_ret {A} (a : A) : keeps I (ret a).
Proof. intros st H. exact H. Qed.

Lemma keeps_throw {A} (f : fault) : keeps I (@throw A f).
Proof. intros st H. exact H. Qed.

Lemma keeps_emit (e : event) : keeps I (emit e).
Proof. intros st H. exact H. Qed.

Lemma keeps_or_throw {A} (o : option A) : keeps I (or_throw o).
Proof. destruct o; [apply keeps_ret | apply keeps_throw]. Qed.

Lemma keeps_bind {A B} (m : M A) (k : A -> M B) :
  keeps I m -> (forall a, keeps I (k a)) -> keeps I (bind m k).
Proof.
  intros Hm Hk st H. rewrite exec_bind.
  specialize (Hm st H). unfold exec in Hm.
  destruct (m st) as [[a|f] st']; simpl in Hm; [now apply Hk | exact Hm].
Qed.
End Keeps.

Section Emits.
Variable P : event -> Prop.

Lemma emits_ret {A} (a : A) : emits_only P (ret a).
Proof. intros st. exists []. split; [now rewrite app_nil_r | constructor]. Qed.

Lemma emits_throw {A} (f : fault) : emits_only P (@throw A f).
Proof. intros st. exists []. split; [now rewrite app_nil_r | constructor]. Qed.

Lemma emits_or_throw {A} (o : option A) : emits_only P (or_throw o).
Proof. destruct o; [apply emits_ret | apply emits_throw]. Qed.

Lemma emits_emit (e : event) : P e -> emits_only P (emit e).
Proof. intros H st. exists [e]. split; [reflexivity | now repeat constructor]. Qed.

Lemma emits_bind {A B} (m : M A) (k : A -> M B) :
  emits_only P m -> (forall a, emits_only P (k a)) -> emits_only P (bind m k).
Proof.
  intros Hm Hk st. rewrite exec_bind.
  destruct (Hm st) as (t1 & E1 & F1). unfold exec in E1.
  destruct (m st) as [[a|f] st']; simpl in E1.
  - destruct (Hk a st') as (t2 & E2 & F2). exists (t1 ++ t2)%list. split.
    + now rewrite E2, E1, app_assoc.
    + apply Forall_app. now split.
  - now exists t1.
Qed.
End Emits.

(** ** The registry *)

Lemma existsb_false_filter {A} (f : A -> bool) (l : list A) :
  existsb f l = false <-> List.length (filter f l) = 0%nat.
Proof.
  induction l as [|x l IH]; simpl; [tauto|].
  destruct (f x); simpl; [split; [discriminate | lia] | exact IH].
Qed.

Lemma event_id_exists_live (id : string) (st : State) :
  event_id_exists id st = (Ok (negb (live_tasks id st =? 0)%nat), st).
Proof.
  unfold event_id_exists, live_tasks. f_equal. f_equal.
  destruct (existsb (is_live_for id) (all_threads st)) eqn:E.
  - destruct (Nat.eqb_spec (List.length (filter (is_live_for id) (all_threads st))) 0) as [H|H];
      [|reflexivity].
    apply existsb_false_filter in H. congruence.
  - apply existsb_false_filter in E. now rewrite E.
Qed.

Lemma filter_live_app (id : string) (l1 l2 : list MonitoringTask) :
  List.length (filter (is_live_for id) (l1 ++ l2)) =
  (List.length (filter (is_live_for id) l1) +
   List.length (filter (is_live_for id) l2))%nat.
Proof. now rewrite filter_app, length_app. Qed.

Lemma filter_live_cancel_same (id : string) (l : list MonitoringTask) :
  List.length (filter (is_live_for id) (map (cancel id) l)) = 0%nat.
Proof.
  induction l as [|t l IH]; simpl; [reflexivity|].
  unfold cancel at 1, is_live_for at 1.
  destruct (String.eqb_spec (task_id t) id) as [E|E]; simpl.
  - exact IH.
  - apply String.eqb_neq in E. rewrite E, andb_false_r. exact IH.
Qed.

Lemma filter_live_cancel_other (id id' : string) (l : list MonitoringTask) :
  id' <> id ->
  List.length (filter (is_live_for id') (map (cancel id) l)) =
  List.length (filter (is_live_for id') l).
Proof.
  intros N. induction l as [|t l IH]; simpl; [reflexivity|].
  unfold cancel at 1.
  destruct (String.eqb_spec (task_id t) id) as [E|E].
  - assert (X : is_live_for id' t = false).
    { unfold is_live_for.
      replace (task_id t =? id')%string with false; [apply andb_false_r|].
      symmetry. apply String.eqb_neq. congruence. }
    rewrite X. cbn. exact IH.
  - destruct (is_live_for id' t); simpl; now rewrite IH.
Qed.

(** ** The classifier *)

Lemma is_keyboard_result (probe : option string) (event_id : string) (st : State) :
  exists b tr,
    is_keyboard probe event_id st =
      (Ok b, mkState (all_threads st) (trace st ++ tr)) /\
    Forall (fun e => is_poll e = false /\ is_shutdown e = false /\
                     forall h, e <> Popen cmd1 h) tr /\
    (b = true -> event_id <> "" /\ probe_failed probe = false) /\
    (event_id = "" -> tr = []).
Proof.
  assert (C : forall h, Popen (cmd2 ++ event_id) h <> Popen cmd1 h).
  { intros h. unfold cmd1, cmd2. simpl. discriminate. }
  unfold is_keyboard. destruct event_id as [|c id]; simpl empty; cbv iota.
  - exists false, []. rewrite app_nil_r. destruct st.
    repeat split; try constructor; try discriminate.
  - destruct probe as [out|].
    + unfold probe_failed.
      destruct (fgets 8 (mkFile out false)) as [tmp pip]. simpl fst.
      exists (match tmp with Some _ => true | None => false end),
        [Popen (cmd2 ++ String c id) OpenPipe; Fgets OpenPipe; Pclose OpenPipe].
      split; [|split; [|split]].
      * destruct tmp; unfold bind, emit, ret; simpl; now rewrite <- !app_assoc.
      * repeat constructor; try reflexivity; try discriminate;
          intros h; unfold cmd1, cmd2; simpl; discriminate.
      * destruct tmp; [split; [discriminate | reflexivity] | discriminate].
      * discriminate.
    + exists false, [Popen (cmd2 ++ String c id) NullHandle; Cout "error occured"].
      split; [|split; [|split]].
      * unfold bind, emit, cout, emit, ret; simpl; now rewrite <- !app_assoc.
      * repeat constructor; try reflexivity; try discriminate;
          intros h; unfold cmd1, cmd2; simpl; discriminate.
      * discriminate.
      * discriminate.
Qed.

(** ** One notification *)

(** [on_uevent] by cases on the action and on the registry. *)
Lemma on_uevent_unfold (probe : option string) (buf : string) (st : State) :
  exists id, get_event_id buf = Some id /\
    on_uevent probe buf st =
    (if device_state buf =? 1 then
       if (live_tasks id st =? 0)%nat then
         keyboard <- is_keyboard probe id;;
         if keyboard then spawn id else ret tt
       else ret tt
     else if device_state buf =? -1 then
       if (live_tasks id st =? 0)%nat then ret tt else del_event_id id
     else ret tt) st.
Proof.
  destruct (get_event_id_total buf) as [id E]. exists id. split; [exact E|].
  unfold on_uevent. rewrite E. cbn [or_throw].
  unfold bind at 1. cbn [ret].
  destruct (device_state buf =? 1).
  - unfold bind at 1. rewrite event_id_exists_live.
    now destruct (live_tasks id st =? 0)%nat.
  - destruct (device_state buf =? -1); [|reflexivity].
    unfold bind at 1. rewrite event_id_exists_live.
    now destruct (live_tasks id st =? 0)%nat.
Qed.

Lemma live_tasks_spawn (i id : string) (ths : list MonitoringTask) :
  List.length (filter (is_live_for i) (ths ++ [mkTask id true])) =
  (List.length (filter (is_live_for i) ths) +
   (if String.eqb id i then 1 else 0))%nat.
Proof.
  rewrite filter_live_app. f_equal. cbn.
  now destruct (String.eqb id i).
Qed.

(** What a notification does to the thread vector. *)
Lemma on_uevent_threads (probe : option string) (buf : string) (st : State) :
  exists id, get_event_id buf = Some id /\
    outcome (on_uevent probe buf) st = Ok tt /\
    (all_threads (exec (on_uevent probe buf) st) = all_threads st \/
     (device_state buf = 1 /\ live_tasks id st = 0%nat /\ id <> "" /\
      probe_failed probe = false /\
      all_threads (exec (on_uevent probe buf) st) =
        (all_threads st ++ [mkTask id true])%list) \/
     (device_state buf = -1 /\ live_tasks id st <> 0%nat /\
      all_threads (exec (on_uevent probe buf) st) =
        map (cancel id) (all_threads st))).
Proof.
  destruct (on_uevent_unfold probe buf st) as (id & E & U).
  exists id. split; [exact E|]. unfold outcome, exec. rewrite U. clear U.
  destruct (Z.eqb_spec (device_state buf) 1) as [S1|S1].
  - destruct (Nat.eqb_spec (live_tasks id st) 0) as [L|L]; [|simpl; auto].
    destruct (is_keyboard_result probe id st) as (b & tr & K & _ & Hb & _).
    unfold bind. rewrite K. destruct b; simpl; [|auto].
    destruct Hb as [Hid Hp]; [reflexivity|]. split; [reflexivity|].
    right. left. auto.
  - destruct (Z.eqb_spec (device_state buf) (-1)) as [S2|S2]; [|simpl; auto].
    destruct (Nat.eqb_spec (live_tasks id st) 0) as [L|L]; simpl; [auto|].
    split; [reflexivity|]. right. right. auto.
Qed.

Lemma on_uevent_at_most_one (probe : option string) (buf : string) :
  keeps at_most_one (on_uevent probe buf).
Proof.
  intros st H. destruct (on_uevent_threads probe buf st) as (id & _ & _ & C).
  destruct C as [-> | [(_ & L & _ & _ & ->) | (_ & _ & ->)]]; [exact H| |].
  - intros i. rewrite live_tasks_spawn.
    destruct (String.eqb_spec id i) as [<-|N].
    + unfold live_tasks in L. rewrite L. lia.
    + specialize (H i). lia.
  - intros i. destruct (String.eqb_spec i id) as [->|N].
    + rewrite filter_live_cancel_same. lia.
    + rewrite filter_live_cancel_other by exact N. apply H.
Qed.

Lemma on_uevent_no_blank (probe : option string) (buf : string) :
  keeps no_blank (on_uevent probe buf).
Proof.
  intros st H. destruct (on_uevent_threads probe buf st) as (id & _ & _ & C).
  destruct C as [-> | [(_ & _ & N & _ & ->) | (_ & _ & ->)]]; [exact H| |].
  - apply Forall_app. split; [exact H|]. now repeat constructor.
  - unfold no_blank in *. rewrite Forall_map.
    eapply Forall_impl; [|exact H]. intros t Ht. unfold cancel.
    now destruct (task_id t =? id)%string.
Qed.

Lemma uevent_string_keeps (I : list MonitoringTask -> Prop) (bytes : string) :
  keeps I (uevent_string bytes).
Proof.
  unfold uevent_string.
  destruct (_ <? _)%nat; [apply keeps_ret | apply keeps_throw].
Qed.

Lemma listen_keeps (I : list MonitoringTask -> Prop) :
  (forall probe buf, keeps I (on_uevent probe buf)) ->
  forall ticks, keeps I (listen ticks).
Proof.
  intros H ticks. induction ticks as [|t rest IH]; cbn [listen];
    [apply keeps_ret|].
  apply keeps_bind; [apply keeps_emit|]. intros _.
  destruct (select_ret t <? 0); [exact IH|].
  destruct (negb _); [exact IH|].
  apply keeps_bind; [apply keeps_emit|]. intros _.
  destruct (received t) as [bytes|]; [|exact IH].
  apply keeps_bind; [apply uevent_string_keeps|]. intros buf.
  apply keeps_bind; [apply H|]. intros _. exact IH.
Qed.

(** ** Lines of the enumeration command *)

Lemma append_assoc (s t u : string) : (s ++ t) ++ u = s ++ (t ++ u).
Proof. induction s; simpl; congruence. Qed.

Lemma avoids_app (a : ascii) (s t : string) :
  avoids a (s ++ t) = avoids a s && avoids a t.
Proof.
  induction s as [|c s IH]; simpl; [reflexivity|].
  now rewrite IH, andb_assoc.
Qed.

Lemma all_digits_avoids (a : ascii) (d : string) :
  is_digit a = false -> all_digits d = true -> avoids a d = true.
Proof.
  intros Ha. induction d as [|c d IH]; simpl; [reflexivity|].
  intros H. apply andb_prop in H as [Hc Hd]. rewrite (IH Hd), andb_true_r.
  destruct (Ascii.eqb_spec c a) as [->|]; [congruence | reflexivity].
Qed.

Lemma index_avoids (a : ascii) (s : string) :
  avoids a s = true -> String.index 0 (String a "") s = None.
Proof.
  induction s as [|c s IH]; simpl avoids; intros H; [reflexivity|].
  apply andb_prop in H as [Hc Hs]. cbn [String.index].
  rewrite prefix_cons, Ascii.eqb_sym.
  destruct (Ascii.eqb c a); [discriminate|]. now rewrite (IH Hs).
Qed.

Lemma c_str_avoids (s : string) : avoids zero s = true -> c_str s = s.
Proof.
  induction s as [|c s IH]; simpl; intros H; [reflexivity|].
  apply andb_prop in H as [Hc Hs].
  destruct (Ascii.eqb c zero); [discriminate|]. now rewrite (IH Hs).
Qed.

Lemma read_line_until (d : string) :
  forall k rest, avoids newline d = true -> (String.length d < k)%nat ->
    read_line k (d ++ String newline rest) = (d ++ String newline "", rest, false).
Proof.
  induction d as [|c d IH]; intros [|k] rest H L; simpl in L; try lia.
  - cbn. reflexivity.
  - simpl in H. apply andb_prop in H as [Hc Hd].
    cbn [append read_line].
    destruct (Ascii.eqb c newline); [discriminate|].
    rewrite (IH k rest Hd) by lia. reflexivity.
Qed.

Lemma device_number_facts (d : string) :
  device_number d = true ->
  d <> "" /\ all_digits d = true /\ (String.length d <= 57)%nat.
Proof.
  unfold device_number. intros H.
  apply andb_prop in H as [H H3]. apply andb_prop in H as [H1 H2].
  apply Nat.leb_le in H3. repeat split; auto.
  intros ->. discriminate.
Qed.

Lemma fgets_line (n : nat) (l rest : string) :
  avoids newline l = true -> (String.length l < n - 1)%nat ->
  fgets n (mkFile (l ++ String newline rest) false) =
    (Some (l ++ String newline ""), mkFile rest false).
Proof.
  intros H L. unfold fgets. cbn [data eof].
  destruct (l ++ String newline rest) as [|c s] eqn:E.
  - destruct l; discriminate.
  - rewrite <- E, read_line_until by assumption. reflexivity.
Qed.

Lemma fgets_grep_line (d rest : string) :
  device_number d = true ->
  fgets 64 (mkFile (grep_line d ++ rest) false) =
    (Some (grep_line d), mkFile rest false).
Proof.
  intros H. apply device_number_facts in H as (_ & Hd & Hl).
  unfold grep_line.
  replace (("event" ++ d ++ String newline "") ++ rest)
    with (("event" ++ d) ++ String newline rest)
    by (now rewrite !append_assoc).
  rewrite fgets_line.
  - now rewrite append_assoc.
  - rewrite avoids_app, (all_digits_avoids newline d) by (reflexivity || exact Hd).
    reflexivity.
  - rewrite length_append. simpl. lia.
Qed.

(** What [start_exists_device] makes of the line of device [d]: the text
    after [event], newline included; erasing the last character leaves the
    number. *)
Lemma get_event_id_grep_line (d : string) :
  device_number d = true ->
  get_event_id (c_str (grep_line d)) = Some (d ++ String newline "") /\
  erase (d ++ String newline "") (usub (size (d ++ String newline "")) 1) = Some d.
Proof.
  intros H. apply device_number_facts in H as (_ & Hd & Hl).
  assert (Hz : avoids zero (d ++ String newline "") = true).
  { rewrite avoids_app, all_digits_avoids by (reflexivity || exact Hd). reflexivity. }
  assert (Hs : avoids "/" (d ++ String newline "") = true).
  { rewrite avoids_app, all_digits_avoids by (reflexivity || exact Hd). reflexivity. }
  assert (Len : String.length (d ++ String newline "") = S (String.length d)).
  { rewrite length_append. simpl. lia. }
  split.
  - assert (C : c_str (grep_line d) = grep_line d).
    { unfold grep_line. cbn [append c_str Ascii.eqb Bool.eqb zero].
      now rewrite c_str_avoids. }
    rewrite C. unfold get_event_id.
    assert (F1 : find (grep_line d) "event" 0 = 0).
    { apply find_zero_iff_prefix; [discriminate|].
      unfold grep_line. cbn [append]. rewrite !prefix_cons. cbn [Ascii.eqb Bool.eqb].
      apply prefix_nil. }
    assert (F2 : find (grep_line d) "/" 0 = npos).
    { unfold find, grep_line. change (Z.to_nat 0) with 0%nat.
      rewrite index_avoids; [reflexivity|].
      rewrite avoids_app. rewrite Hs. reflexivity. }
    rewrite F1, F2. change (0 =? npos) with false. rewrite Z.eqb_refl. cbv iota.
    unfold substr, size, grep_line. rewrite length_append, Len.
    cbn [String.length].
    no_wrap.
    replace (Z.of_nat (5 + S (String.length d)) <? (0 + 5)) with false
      by (symmetry; apply Z.ltb_ge; lia).
    change (Z.to_nat (0 + 5)) with 5%nat. cbn [append substring].
    rewrite substring_all by (rewrite Len; lia). reflexivity.
  - unfold erase, size. rewrite Len. no_wrap.
    replace (Z.of_nat (S (String.length d)) <? Z.of_nat (S (String.length d)) - 1)
      with false by (symmetry; apply Z.ltb_ge; lia).
    replace (Z.to_nat (Z.of_nat (S (String.length d)) - 1)) with (String.length d)
      by lia.
    now rewrite substring_app_prefix.
Qed.

(** ** The enumeration loop *)

Lemma enum_loop_grep_output (ds : list string) :
  Forall (fun d => device_number d = true) ds ->
  forall fuel st, (String.length (grep_output ds) + 2 <= fuel)%nat ->
    enum_loop fuel (Some (mkFile (grep_output ds) false)) st =
    (Ok tt,
     mkState (all_threads st ++ map (fun d => mkTask d true) ds)
             (trace st ++ enum_events ds ++
                [Feof OpenPipe; Fgets OpenPipe; Feof OpenPipe])).
Proof.
  induction 1 as [|d ds Hd Hds IH]; intros fuel st Hf.
  - destruct fuel as [|[|fuel]]; simpl in Hf; try lia.
    destruct st as [ths tr]. cbn. rewrite app_nil_r, <- !app_assoc. reflexivity.
  - destruct fuel as [|fuel]; [lia|].
    cbn [enum_loop grep_output]. unfold bind at 1. cbn [emit eof].
    rewrite (fgets_grep_line d (grep_output ds) Hd).
    unfold bind at 1. cbn [emit].
    destruct (get_event_id_grep_line d Hd) as [G E].
    unfold bind at 1. rewrite G. cbn [or_throw ret].
    unfold bind at 1. rewrite E. cbn [or_throw ret].
    unfold bind at 1. cbn [spawn all_threads trace].
    rewrite IH.
    + cbn [all_threads trace map enum_events flat_map].
      f_equal. f_equal; rewrite <- !app_assoc; reflexivity.
    + cbn [grep_output] in Hf. rewrite length_append in Hf.
      unfold grep_line in Hf. cbn [append String.length] in Hf. lia.
Qed.

Lemma start_exists_device_grep_output (ds : list string) (st : State) :
  Forall (fun d => device_number d = true) ds ->
  start_exists_device (Some (grep_output ds)) st =
    (Ok tt,
     mkState (all_threads st ++ map (fun d => mkTask d true) ds)
             (trace st ++ Popen cmd1 OpenPipe :: enum_events ds ++
                [Feof OpenPipe; Fgets OpenPipe; Feof OpenPipe; Pclose OpenPipe])).
Proof.
  intros H. unfold start_exists_device. unfold bind at 1. cbn [emit].
  unfold bind at 1. rewrite (enum_loop_grep_output ds H) by (unfold enum_fuel; lia).
  unfold emit. cbn [all_threads trace]. f_equal. f_equal.
  rewrite <- !app_assoc. reflexivity.
Qed.

(** The bound of [start_exists_device] on the loop is never reached. *)
Lemma read_line_rest (k : nat) :
  forall s l r e, read_line k s = (l, r, e) ->
    (String.length r <= String.length s)%nat.
Proof.
  induction k as [|k IH]; intros s l r e H; simpl in H.
  - injection H as _ <- _. lia.
  - destruct s as [|c s]; [injection H as _ <- _; simpl; lia|].
    destruct (Ascii.eqb c newline); [injection H as _ <- _; simpl; lia|].
    destruct (read_line k s) as [[l' r'] e'] eqn:R.
    injection H as _ <- _. apply IH in R. simpl. lia.
Qed.

Lemma fgets_progress (n : nat) (f f' : FILE) (line : option string) :
  (2 <= n)%nat -> fgets n f = (line, f') ->
  match line with
  | Some _ => (String.length (data f') < String.length (data f))%nat
  | None => eof f' = true
  end.
Proof.
  intros Hn. unfold fgets. destruct (data f) as [|c s] eqn:D.
  - intros H. injection H as <- <-. reflexivity.
  - destruct n as [|[|n]]; try lia. cbn [Nat.sub read_line].
    replace (S n - 0)%nat with (S n) by lia. cbn [read_line].
    destruct (Ascii.eqb c newline).
    + intros H. injection H as <- <-. simpl. lia.
    + destruct (read_line n s) as [[l r] e] eqn:R.
      intros H. injection H as <- <-. apply read_line_rest in R. simpl. lia.
Qed.

Lemma enum_loop_fuel_enough (fuel : nat) :
  forall f st,
    ((if eof f then 1 else String.length (data f) + 2) <= fuel)%nat ->
    outcome (enum_loop fuel (Some f)) st <> Crash FuelExhausted.
Proof.
  induction fuel as [|fuel IH]; intros f st Hf.
  - destruct (eof f); lia.
  - cbn [enum_loop]. unfold outcome, bind at 1. cbn [emit].
    destruct (eof f) eqn:Ef; [discriminate|].
    destruct (fgets 64 f) as [line f'] eqn:G.
    pose proof (fgets_progress 64 f f' line ltac:(lia) G) as P.
    unfold bind at 1. cbn [emit].
    destruct line as [buf|].
    + unfold bind at 1.
      destruct (get_event_id (c_str buf)) as [id|]; cbn [or_throw ret throw];
        [|discriminate].
      unfold bind at 1.
      destruct (erase id (usub (size id) 1)) as [id'|]; cbn [or_throw ret throw];
        [|discriminate].
      unfold bind at 1. cbn [spawn]. apply IH.
      destruct (eof f'); lia.
    + apply IH. rewrite P. lia.
Qed.

Lemma start_exists_device_fuel (enum : option string) (st : State) :
  outcome (start_exists_device enum) st <> Crash FuelExhausted.
Proof.
  unfold start_exists_device, outcome. destruct enum as [out|].
  - unfold bind at 1. cbn [emit].
    pose proof (enum_loop_fuel_enough (enum_fuel out) (mkFile out false)
      (mkState (all_threads st) (trace st ++ [Popen cmd1 OpenPipe]))) as H.
    unfold outcome in H. unfold bind at 1.
    destruct (enum_loop _ _ _) as [[[]|f] st']; cbn in *.
    + discriminate.
    + intros E. apply H; [unfold enum_fuel; lia | congruence].
  - cbn. discriminate.
Qed.

(** ** Traces of the parts of the program *)

Lemma emits_weaken (P Q : event -> Prop) {A} (m : M A) :
  (forall e, P e -> Q e) -> emits_only P m -> emits_only Q m.
Proof.
  intros W H st. destruct (H st) as (tr & E & F).
  exists tr. split; [exact E|]. eapply Forall_impl; eauto.
Qed.

Lemma emits_event_id_exists (P : event -> Prop) (id : string) :
  emits_only P (event_id_exists id).
Proof. intros st. exists []. split; [now rewrite app_nil_r | constructor]. Qed.

Lemma emits_spawn (P : event -> Prop) (id : string) :
  P (Spawn id) -> emits_only P (spawn id).
Proof. intros H st. exists [Spawn id]. split; [reflexivity | now repeat constructor]. Qed.

Lemma emits_del_event_id (P : event -> Prop) (id : string) :
  P (DelEventId id) -> emits_only P (del_event_id id).
Proof. intros H st. exists [DelEventId id]. split; [reflexivity | now repeat constructor]. Qed.

Lemma emits_is_keyboard (probe : option string) (id : string) :
  emits_only (fun e => is_poll e = false /\ listener_event e) (is_keyboard probe id).
Proof.
  intros st. destruct (is_keyboard_result probe id st) as (b & tr & K & F & _).
  exists tr. unfold exec. rewrite K. split; [reflexivity|].
  eapply Forall_impl; [|exact F].
  intros e (H1 & H2 & H3). repeat split; assumption.
Qed.

Lemma listener_event_simple (e : event) :
  is_shutdown e = false -> (forall cmd h, e <> Popen cmd h) -> listener_event e.
Proof. intros H N. split; [exact H | intros h; apply N]. Qed.

Lemma emits_on_uevent (probe : option string) (buf : string) :
  emits_only (fun e => is_poll e = false /\ listener_event e) (on_uevent probe buf).
Proof.
  assert (S : forall id, is_poll (Spawn id) = false /\ listener_event (Spawn id)).
  { intros id. split; [reflexivity|]. now apply listener_event_simple. }
  assert (D : forall id, is_poll (DelEventId id) = false /\ listener_event (DelEventId id)).
  { intros id. split; [reflexivity|]. now apply listener_event_simple. }
  unfold on_uevent. apply emits_bind; [apply emits_or_throw|]. intros id.
  destruct (device_state buf =? 1).
  - apply emits_bind; [apply emits_event_id_exists|]. intros [|]; [apply emits_ret|].
    apply emits_bind; [apply emits_is_keyboard|].
    intros [|]; [now apply emits_spawn | apply emits_ret].
  - destruct (device_state buf =? -1); [|apply emits_ret].
    apply emits_bind; [apply emits_event_id_exists|].
    intros [|]; [now apply emits_del_event_id | apply emits_ret].
Qed.

Lemma emits_uevent_string (P : event -> Prop) (bytes : string) :
  emits_only P (uevent_string bytes).
Proof.
  unfold uevent_string.
  destruct (_ <? _)%nat; [apply emits_ret | apply emits_throw].
Qed.

Lemma emits_listen (ticks : list Tick) : emits_only listener_event (listen ticks).
Proof.
  assert (S : listener_event Select) by now apply listener_event_simple.
  assert (R : listener_event Recv) by now apply listener_event_simple.
  induction ticks as [|t rest IH]; cbn [listen]; [apply emits_ret|].
  apply emits_bind; [now apply emits_emit|]. intros _.
  destruct (select_ret t <? 0); [exact IH|].
  destruct (negb _); [exact IH|].
  apply emits_bind; [now apply emits_emit|]. intros _.
  destruct (received t) as [bytes|]; [|exact IH].
  apply emits_bind; [apply emits_uevent_string|]. intros buf.
  apply emits_bind; [|intros _; exact IH].
  eapply emits_weaken; [|apply emits_on_uevent].
  intros e [_ H]. exact H.
Qed.

Lemma emits_enum_loop (fuel : nat) :
  forall pip, emits_only startup_event (enum_loop fuel pip).
Proof.
  assert (E : forall e, is_poll e = false -> is_shutdown e = false ->
                        emits_only startup_event (emit e)).
  { intros e H1 H2. apply emits_emit. now split. }
  induction fuel as [|fuel IH]; intros pip; cbn [enum_loop]; [apply emits_throw|].
  destruct pip as [f|].
  - apply emits_bind; [now apply E|]. intros _.
    destruct (eof f); [apply emits_ret|].
    destruct (fgets 64 f) as [line f'].
    apply emits_bind; [now apply E|]. intros _.
    destruct line as [buf|]; [|apply IH].
    apply emits_bind; [apply emits_or_throw|]. intros id.
    apply emits_bind; [apply emits_or_throw|]. intros id'.
    apply emits_bind; [|intros _; apply IH].
    apply emits_spawn. now split.
  - apply emits_bind; [now apply E | intros _; apply emits_throw].
Qed.

Lemma emits_start_exists_device (enum : option string) :
  emits_only startup_event (start_exists_device enum).
Proof.
  assert (E : forall e, is_poll e = false -> is_shutdown e = false ->
                        emits_only startup_event (emit e)).
  { intros e H1 H2. apply emits_emit. now split. }
  unfold start_exists_device. destruct enum as [out|].
  - apply emits_bind; [now apply E|]. intros _.
    apply emits_bind; [apply emits_enum_loop | intros _; now apply E].
  - apply emits_bind; [now apply E|]. intros _.
    apply emits_bind; [now apply E|]. intros _.
    apply emits_bind; [apply emits_enum_loop | intros _; now apply E].
Qed.

Lemma init_socket_ok (socket_ret bind_ret : Z) (st : State) :
  0 <= socket_ret -> 0 <= bind_ret ->
  init_socket socket_ret bind_ret st =
    (Ok socket_ret,
     mkState (all_threads st) (trace st ++ [Socket socket_ret; Bind bind_ret])).
Proof.
  intros Hs Hb. unfold init_socket.
  apply Z.ltb_ge in Hs. apply Z.ltb_ge in Hb.
  unfold bind at 1. cbn [emit]. rewrite Hs.
  unfold bind at 1. cbn [emit all_threads trace]. rewrite Hb.
  unfold ret. now rewrite <- app_assoc.
Qed.

Lemma emits_init_socket (socket_ret bind_ret : Z) :
  emits_only (fun e => forall h, e <> Popen cmd1 h) (init_socket socket_ret bind_ret).
Proof.
  unfold init_socket, cout.
  apply emits_bind; [apply emits_emit; discriminate|]. intros _.
  destruct (socket_ret <? 0).
  - apply emits_bind; [apply emits_emit; discriminate | intros _; apply emits_ret].
  - apply emits_bind; [apply emits_emit; discriminate|]. intros _.
    destruct (bind_ret <? 0); [|apply emits_ret].
    apply emits_bind; [apply emits_emit; discriminate|]. intros _.
    apply emits_bind; [apply emits_emit; discriminate | intros _; apply emits_ret].
Qed.

Lemma emits_clear_all (P : event -> Prop) :
  P ClearAll -> emits_only P clear_all_key_detect_threads.
Proof. intros H st. exists [ClearAll]. split; [reflexivity | now repeat constructor]. Qed.

Lemma emits_join_all (P : event -> Prop) :
  (forall id, P (Join id)) -> emits_only P join_all.
Proof.
  intros H st. exists (map (fun t => Join (task_id t)) (all_threads st)).
  split; [reflexivity|]. apply Forall_map. apply Forall_forall. auto.
Qed.

(** ** States of the listening loop *)

Lemma live_tasks_not_enumerated (i : string) (ds : list string) :
  ~ In i ds ->
  List.length (filter (is_live_for i) (map (fun d => mkTask d true) ds)) = 0%nat.
Proof.
  induction ds as [|d ds IH]; intros N; [reflexivity|]. cbn.
  destruct (String.eqb_spec d i) as [->|_].
  - exfalso. apply N. now left.
  - apply IH. intros H. apply N. now right.
Qed.

Lemma live_tasks_enumerated (i : string) (ds : list string) :
  NoDup ds -> In i ds ->
  List.length (filter (is_live_for i) (map (fun d => mkTask d true) ds)) = 1%nat.
Proof.
  induction 1 as [|d ds Hd Hds IH]; intros Hi; [contradiction|]. cbn.
  destruct (String.eqb_spec d i) as [->|N].
  - cbn. now rewrite live_tasks_not_enumerated.
  - destruct Hi as [->|Hi]; [contradiction | now apply IH].
Qed.

Lemma at_most_one_enumerated (ds : list string) :
  NoDup ds -> at_most_one (map (fun d => mkTask d true) ds).
Proof.
  intros H i. destruct (in_dec string_dec i ds) as [Hi|Hi].
  - rewrite live_tasks_enumerated by assumption. lia.
  - rewrite live_tasks_not_enumerated by assumption. lia.
Qed.

Lemma no_blank_enumerated (ds : list string) :
  Forall (fun d => device_number d = true) ds ->
  no_blank (map (fun d => mkTask d true) ds).
Proof.
  intros H. unfold no_blank. rewrite Forall_map.
  eapply Forall_impl; [|exact H]. intros d Hd. cbn.
  now apply device_number_facts in Hd.
Qed.

Lemma listening_state_unfold (ds : list string) (ticks : list Tick) :
  Forall (fun d => device_number d = true) ds ->
  listening_state ds ticks =
    exec (listen ticks)
      (mkState (map (fun d => mkTask d true) ds)
               (Popen cmd1 OpenPipe :: enum_events ds ++
                  [Feof OpenPipe; Fgets OpenPipe; Feof OpenPipe; Pclose OpenPipe])).
Proof.
  intros H. unfold listening_state. rewrite exec_bind.
  now rewrite (start_exists_device_grep_output ds init_state H).
Qed.

Lemma listening_state_at_most_one (ds : list string) (ticks : list Tick) :
  Forall (fun d => device_number d = true) ds -> NoDup ds ->
  at_most_one (all_threads (listening_state ds ticks)).
Proof.
  intros H N. rewrite listening_state_unfold by exact H.
  apply (listen_keeps at_most_one on_uevent_at_most_one).
  now apply at_most_one_enumerated.
Qed.

Lemma listening_state_no_blank (ds : list string) (ticks : list Tick) :
  Forall (fun d => device_number d = true) ds ->
  no_blank (all_threads (listening_state ds ticks)).
Proof.
  intros H. rewrite listening_state_unfold by exact H.
  apply (listen_keeps no_blank on_uevent_no_blank).
  now apply no_blank_enumerated.
Qed.

Lemma no_blank_live_tasks (st : State) :
  no_blank (all_threads st) -> live_tasks "" st = 0%nat.
Proof.
  unfold live_tasks, no_blank. induction 1 as [|t l Ht Hl IH]; [reflexivity|].
  cbn. unfold is_live_for at 1.
  apply String.eqb_neq in Ht. now rewrite Ht, andb_false_r.
Qed.

(** A notification that leaves the registry alone leaves the whole state
    alone. *)
Lemma on_uevent_skip (probe : option string) (buf id : string) (st : State) :
  get_event_id buf = Some id ->
  device_state buf = 0 \/
  (device_state buf = -1 /\ live_tasks id st = 0%nat) \/
  (device_state buf = 1 /\ (live_tasks id st <> 0%nat \/ id = "")) ->
  on_uevent probe buf st = (Ok tt, st).
Proof.
  intros E C. destruct (on_uevent_unfold probe buf st) as (id' & E' & ->).
  assert (id' = id) by congruence. subst id'.
  destruct C as [S | [[S L] | [S L]]]; rewrite S; cbn [Z.eqb Pos.eqb].
  - reflexivity.
  - now rewrite L.
  - destruct (Nat.eqb_spec (live_tasks id st) 0) as [L0|L0]; [|reflexivity].
    destruct L as [L | ->]; [contradiction|].
    destruct st; reflexivity.
Qed.

(** ** Properties of the specification *)

(** C1.  On the buffer of the specification, where a path separator
    follows the token, [get_event_id] does not stop at the separator: the
    count handed to [substr] is [pos_stop - pos - 1], four more than the
    distance from the end of the token to the separator, so the text
    returned runs past it.  The identifier is ["Unsigned3/uev"], not ["3"];
    on the plain path [".../event3/uevent"] it is ["3/uev"]. *)
Theorem get_event_id_runs_past_separator :
  get_event_id "add@/devices/.../input/input9/eventUnsigned3/uevent"
    = Some "Unsigned3/uev" /\
  get_event_id "add@/devices/platform/i8042/serio0/input/input9/event3/uevent"
    = Some "3/uev".
Proof. split; reflexivity. Qed.

(** C2, as the code has it.  In every state a run can be in after
    enumerating distinct devices and taking any number of turns of the
    listening loop, each event id has at most one live task; an add
    notification for a keyboard leaves exactly one live task for its id,
    and the same notification delivered again changes nothing. *)
Theorem hotplug_add_idempotent
    (ds : list string) (ticks : list Tick) (buf id : string)
    (p1 p2 : option string) :
  Forall (fun d => device_number d = true) ds -> NoDup ds ->
  device_state buf = 1 -> get_event_id buf = Some id ->
  id <> "" -> probe_failed p1 = false ->
  let st := listening_state ds ticks in
  let st1 := exec (on_uevent p1 buf) st in
  at_most_one (all_threads st) /\
  at_most_one (all_threads st1) /\
  live_tasks id st1 = 1%nat /\
  on_uevent p2 buf st1 = (Ok tt, st1).
Proof.
  intros Hds Hnd Hs Hid Hne Hp st st1.
  assert (A : at_most_one (all_threads st))
    by now apply listening_state_at_most_one.
  assert (A1 : at_most_one (all_threads st1))
    by now apply on_uevent_at_most_one.
  assert (L : live_tasks id st1 = 1%nat).
  { subst st1. destruct (on_uevent_unfold p1 buf st) as (id' & E' & U).
    assert (id' = id) by congruence. subst id'.
    unfold exec. rewrite U, Hs. cbn [Z.eqb Pos.eqb].
    destruct (Nat.eqb_spec (live_tasks id st) 0) as [L0|L0].
    - destruct (is_keyboard_result p1 id st) as (b & tr & K & _ & _ & _).
      unfold bind. rewrite K.
      assert (b = true).
      { revert K. unfold is_keyboard, probe_failed in *.
        destruct id; [congruence|]. cbn [empty].
        destruct p1 as [out|]; [|discriminate].
        destruct (fgets 8 (mkFile out false)) as [[l|] f]; [|discriminate].
        unfold bind, emit, ret. intros K. now injection K. }
      subst b. cbn. unfold live_tasks. cbn [all_threads].
      rewrite live_tasks_spawn, String.eqb_refl.
      unfold live_tasks in L0. rewrite L0. reflexivity.
    - cbn. specialize (A id). unfold live_tasks in *. lia. }
  repeat split; try assumption.
  apply on_uevent_skip with (id := id); [exact Hid|].
  right. right. split; [exact Hs|]. left. lia.
Qed.

(** C3, as the code has it.  A run that reaches the end of
    [device_detect] on a positive descriptor ends with: the stop signal to
    every task, then the closing of the channel, then the joining of every
    thread, each of the first two exactly once; every task has been told to
    stop. *)
Theorem shutdown_sequence
    (enum : option string) (socket_ret bind_ret : Z) (ticks : list Tick)
    (st' : State) :
  0 < socket_ret -> 0 <= bind_ret ->
  device_detect enum socket_ret bind_ret ticks init_state = (Ok tt, st') ->
  exists pre,
    trace st' =
      (pre ++ ClearAll :: Close socket_ret ::
         map (fun t => Join (task_id t)) (all_threads st'))%list /\
    Forall (fun e => is_shutdown e = false) pre /\
    Forall (fun t => live t = false) (all_threads st').
Proof.
  intros Hs Hb. unfold device_detect. unfold bind at 1.
  destruct (emits_start_exists_device enum init_state) as (t1 & E1 & F1).
  unfold exec in E1.
  destruct (start_exists_device enum init_state) as [[[]|f] st1];
    [|discriminate].
  cbn [snd init_state trace app] in E1.
  unfold bind at 1. rewrite init_socket_ok by lia.
  replace (socket_ret <? 0) with false by (symmetry; apply Z.ltb_ge; lia).
  unfold bind at 1.
  match goal with |- context [listen ticks ?s] => set (st2 := s) end.
  destruct (emits_listen ticks st2) as (t3 & E3 & F3). unfold exec in E3.
  destruct (listen ticks st2) as [[[]|f] st3]; [|discriminate].
  cbn [snd] in E3. subst st2. cbn [trace] in E3.
  unfold bind at 1. cbn [clear_all_key_detect_threads].
  replace (0 <? socket_ret) with true by (symmetry; apply Z.ltb_lt; lia).
  unfold bind at 1. cbn [emit all_threads trace]. unfold join_all.
  cbn [all_threads trace]. intros R. injection R as <-.
  cbn [all_threads trace].
  exists (trace st3). split; [|split].
  - rewrite <- !app_assoc. reflexivity.
  - rewrite E3, E1. rewrite !Forall_app. repeat split.
    + eapply Forall_impl; [|exact F1]. now intros e [_ H].
    + repeat constructor.
    + eapply Forall_impl; [|exact F3]. now intros e [H _].
  - rewrite Forall_map. apply Forall_forall. reflexivity.
Qed.

(** C4.  When the enumeration command prints one line for each of the
    distinct keyboards [ds], [start_exists_device] returns with one live task
    for each of them, having polled nothing; [device_detect] runs it first,
    and never runs the enumeration command again. *)
Theorem startup_enumeration_covers
    (ds : list string) (socket_ret bind_ret : Z) (ticks : list Tick) :
  Forall (fun d => device_number d = true) ds -> NoDup ds ->
  let startup := start_exists_device (Some (grep_output ds)) in
  let st1 := exec startup init_state in
  outcome startup init_state = Ok tt /\
  all_threads st1 = map (fun d => mkTask d true) ds /\
  (forall d, In d ds -> live_tasks d st1 = 1%nat) /\
  Forall (fun e => is_poll e = false) (trace st1) /\
  exists rest,
    trace (exec (device_detect (Some (grep_output ds)) socket_ret bind_ret ticks)
                init_state) = (trace st1 ++ rest)%list /\
    Forall (fun e => forall h, e <> Popen cmd1 h) rest.
Proof.
  intros Hds Hnd startup st1.
  pose proof (start_exists_device_grep_output ds init_state Hds) as S.
  fold startup in S.
  assert (T : all_threads st1 = map (fun d => mkTask d true) ds).
  { subst st1. unfold exec. now rewrite S. }
  split; [unfold outcome; now rewrite S|].
  split; [exact T|].
  split; [intros d Hd; unfold live_tasks; rewrite T;
          now apply live_tasks_enumerated|].
  split.
  - destruct (emits_start_exists_device (Some (grep_output ds)) init_state)
      as (tr & E & F). fold startup st1 in E. rewrite E. cbn [init_state trace app].
    eapply Forall_impl; [|exact F]. now intros e [H _].
  - unfold device_detect. fold startup. rewrite exec_bind.
    assert (S1 : startup init_state = (Ok tt, st1)).
    { subst st1. unfold exec. now rewrite S. }
    rewrite S1.
    match goal with |- context [exec ?k st1] =>
      assert (K : emits_only (fun e => forall h, e <> Popen cmd1 h) k)
    end.
    { apply emits_bind; [apply emits_init_socket|]. intros fd.
      destruct (fd <? 0); [apply emits_emit; discriminate|].
      apply emits_bind.
      { eapply emits_weaken; [|apply emits_listen]. now intros e [_ H]. }
      intros _. apply emits_bind; [apply emits_clear_all; discriminate|].
      intros _. apply emits_bind.
      { destruct (0 <? fd); [apply emits_emit; discriminate | apply emits_ret]. }
      intros _. apply emits_join_all. discriminate. }
    exact (K st1).
Qed.

(** C5.  [is_keyboard] always returns a boolean, and it returns [false]
    when the probe could not be opened or no line could be read from it. *)
Theorem is_keyboard_best_effort
    (probe : option string) (event_id : string) (st : State) :
  (exists b, outcome (is_keyboard probe event_id) st = Ok b) /\
  (probe_failed probe = true ->
   outcome (is_keyboard probe event_id) st = Ok false /\
   all_threads (exec (is_keyboard probe event_id) st) = all_threads st).
Proof.
  destruct (is_keyboard_result probe event_id st) as (b & tr & K & _ & Hb & _).
  unfold outcome, exec. rewrite K. split; [now exists b|].
  intros F. split; [|reflexivity]. destruct b; [|reflexivity].
  destruct Hb as [_ Hb]; [reflexivity | congruence].
Qed.

(** C6.  A remove notification for an event id with no registered task
    returns normally and leaves the state as it was. *)
Theorem remove_unregistered_is_noop
    (probe : option string) (buf id : string) (st : State) :
  device_state buf = -1 -> get_event_id buf = Some id ->
  live_tasks id st = 0%nat ->
  on_uevent probe buf st = (Ok tt, st).
Proof.
  intros S E L. apply on_uevent_skip with (id := id); auto.
Qed.

(** C7.  A buffer without the token yields the empty identifier, and in
    every state of the listening loop a notification whose identifier is
    empty returns normally and leaves the state as it was: no task is
    started, none is stopped. *)
Theorem empty_identifier_ignored
    (ds : list string) (ticks : list Tick) (probe : option string)
    (buf : string) :
  Forall (fun d => device_number d = true) ds ->
  ((forall i, substring i 5 buf <> "event") -> get_event_id buf = Some "") /\
  (get_event_id buf = Some "" ->
   on_uevent probe buf (listening_state ds ticks) =
     (Ok tt, listening_state ds ticks)).
Proof.
  intros Hds. split; [apply get_event_id_no_token|].
  intros E. apply on_uevent_skip with (id := ""); [exact E|].
  pose proof (no_blank_live_tasks _ (listening_state_no_blank ds ticks Hds)) as L.
  destruct (Z.eq_dec (device_state buf) 1) as [S1|S1]; [right; right; auto|].
  destruct (Z.eq_dec (device_state buf) (-1)) as [S2|S2]; [right; left; auto|].
  left. unfold device_state in *.
  destruct (find buf "add" 0 =? 0); [congruence|].
  destruct (find buf "remove" 0 =? 0); [congruence | reflexivity].
Qed.

(** C8.  [device_state] answers 1 exactly on the prefix [add], -1 exactly
    on the prefix [remove] and 0 otherwise, and a notification classified 0
    leaves the state as it was. *)
Theorem action_classification (buf : string) :
  (device_state buf = 1 <-> prefix "add" buf = true) /\
  (device_state buf = -1 <-> prefix "remove" buf = true) /\
  (device_state buf = 0 <->
     prefix "add" buf = false /\ prefix "remove" buf = false) /\
  (device_state buf = 0 ->
   forall probe st, on_uevent probe buf st = (Ok tt, st)).
Proof.
  destruct (device_state_cases buf) as (A & R & O).
  split; [exact A|]. split; [exact R|]. split; [exact O|].
  intros S probe st. destruct (get_event_id_total buf) as [id E].
  apply on_uevent_skip with (id := id); auto.
Qed.

(** C9.  When [popen] gives the null handle, [start_exists_device] prints
    its message and goes on: the null handle is passed to [feof], where the
    process dies. *)
Theorem start_exists_device_null_pipe (st : State) :
  start_exists_device None st =
    (Crash NullStream,
     mkState (all_threads st)
             (trace st ++ [Popen cmd1 NullHandle; Cout "error occured";
                           Feof NullHandle])).
Proof.
  unfold start_exists_device, bind, cout, emit, throw. cbn.
  now rewrite <- !app_assoc.
Qed.

(** On the lines [eventN] with a number of 57 digits at most, which
    [fgets] reads whole, [get_event_id] gives a non-empty identifier, the
    position [size() - 1] handed to [erase] is inside it, what is left is
    the device number, and the enumeration returns normally. *)
Theorem enumeration_erase_in_bounds (ds : list string) (st : State) :
  Forall (fun d => device_number d = true) ds ->
  Forall (fun d =>
            exists id,
              get_event_id (c_str (grep_line d)) = Some id /\
              id <> "" /\
              0 <= usub (size id) 1 < size id /\
              erase id (usub (size id) 1) = Some d) ds /\
  outcome (start_exists_device (Some (grep_output ds))) st = Ok tt.
Proof.
  intros Hds. split.
  - eapply Forall_impl; [|exact Hds]. intros d Hd.
    destruct (get_event_id_grep_line d Hd) as [G E].
    exists (d ++ String newline ""). split; [exact G|].
    split; [destruct d; discriminate|]. split; [|exact E].
    apply device_number_facts in Hd as (_ & _ & Hl).
    unfold size. rewrite length_append. cbn [String.length].
    no_wrap. lia.
  - unfold outcome. now rewrite start_exists_device_grep_output.
Qed.

(** C10.  The enumeration does not check the identifier before erasing
    its last character.  On the line of a device number of 58 digits [fgets]
    stops after 63 characters, short of the newline: the first read gives the
    58 digits, of which [erase] drops the last, and the second read gives the
    newline alone, where [get_event_id] finds no token and returns the empty
    identifier; [size() - 1] wraps to [npos], [erase] throws, and the run
    dies with one task started under a wrong number. *)
Theorem enumeration_erase_out_of_range :
  all_digits long_device_number = true /\
  String.length (grep_line long_device_number) = 64%nat /\
  get_event_id (c_str (String newline "")) = Some "" /\
  usub (size "") 1 = npos /\
  erase "" (usub (size "") 1) = None /\
  start_exists_device (Some (grep_line long_device_number)) init_state =
    (Crash OutOfRange,
     mkState
       [mkTask "123456789012345678901234567890123456789012345678901234567" true]
       [Popen cmd1 OpenPipe; Feof OpenPipe; Fgets OpenPipe;
        Spawn "123456789012345678901234567890123456789012345678901234567";
        Feof OpenPipe; Fgets OpenPipe]).
Proof. repeat split; vm_compute; reflexivity. Qed.

(** ** Concrete runs *)

(** The enumeration makes no registry check: a device number printed
    twice gets two live tasks. *)
Lemma startup_duplicate_line_two_tasks :
  live_tasks "3"
    (exec (start_exists_device (Some (grep_output ["3"; "3"]))) init_state) = 2%nat /\
  ~ at_most_one
      (all_threads
         (exec (start_exists_device (Some (grep_output ["3"; "3"]))) init_state)).
Proof.
  split; [reflexivity|].
  intros H. specialize (H "3"). vm_compute in H. lia.
Qed.

Lemma hotplug_add_idempotent_witness :
  let buf := "add@/devices/platform/i8042/serio0/input/input9/event5" in
  let st := listening_state ["3"] [] in
  let st1 := exec (on_uevent (Some "H: Handlers=sysrq kbd event5 leds") buf) st in
  at_most_one (all_threads st) /\
  at_most_one (all_threads st1) /\
  live_tasks "5" st1 = 1%nat /\
  on_uevent None buf st1 = (Ok tt, st1).
Proof.
  apply (hotplug_add_idempotent ["3"] []
           "add@/devices/platform/i8042/serio0/input/input9/event5" "5"
           (Some "H: Handlers=sysrq kbd event5 leds") None).
  - repeat constructor.
  - repeat constructor. simpl. tauto.
  - reflexivity.
  - reflexivity.
  - discriminate.
  - reflexivity.
Defined.

(** On a run with one enumerated keyboard and no turn of the loop, the
    tasks are told to stop before the channel is closed. *)
Lemma shutdown_cancels_before_close :
  ~ closes_before_cancelling
      (trace (exec (device_detect (Some (grep_output ["3"])) 3 0 []) init_state)).
Proof. vm_compute. lia. Qed.

Lemma shutdown_sequence_witness :
  let st' :=
    exec (device_detect (Some (grep_output ["3"])) 3 0
            [mkTick 1 true (Some "remove@/devices/x/input/input9/event3") None])
         init_state in
  exists pre,
    trace st' =
      (pre ++ ClearAll :: Close 3 ::
         map (fun t => Join (task_id t)) (all_threads st'))%list /\
    Forall (fun e => is_shutdown e = false) pre /\
    Forall (fun t => live t = false) (all_threads st').
Proof.
  apply (shutdown_sequence (Some (grep_output ["3"])) 3 0
           [mkTick 1 true (Some "remove@/devices/x/input/input9/event3") None]).
  - lia.
  - lia.
  - vm_compute. reflexivity.
Defined.

Lemma startup_enumeration_covers_witness :
  let startup := start_exists_device (Some (grep_output ["3"; "4"; "7"])) in
  let st1 := exec startup init_state in
  outcome startup init_state = Ok tt /\
  all_threads st1 = map (fun d => mkTask d true) ["3"; "4"; "7"] /\
  (forall d, In d ["3"; "4"; "7"] -> live_tasks d st1 = 1%nat) /\
  Forall (fun e => is_poll e = false) (trace st1) /\
  exists rest,
    trace (exec (device_detect (Some (grep_output ["3"; "4"; "7"])) 3 0 [])
                init_state) = (trace st1 ++ rest)%list /\
    Forall (fun e => forall h, e <> Popen cmd1 h) rest.
Proof.
  apply (startup_enumeration_covers ["3"; "4"; "7"] 3 0 []).
  - repeat constructor.
  - repeat constructor; simpl; intuition discriminate.
Defined.

Lemma is_keyboard_best_effort_witness :
  probe_failed (Some "") = true /\
  outcome (is_keyboard (Some "") "3") init_state = Ok false /\
  all_threads (exec (is_keyboard (Some "") "3") init_state) = all_threads init_state.
Proof.
  split; [reflexivity|].
  apply (is_keyboard_best_effort (Some "") "3" init_state). reflexivity.
Defined.

Lemma remove_unregistered_is_noop_witness :
  on_uevent None "remove@/devices/x/input/input9/event9" (listening_state ["3"] []) =
    (Ok tt, listening_state ["3"] []).
Proof.
  apply (remove_unregistered_is_noop None
           "remove@/devices/x/input/input9/event9" "9").
  - reflexivity.
  - reflexivity.
  - reflexivity.
Defined.

Lemma empty_identifier_ignored_witness :
  get_event_id "remove@/devices/pci0000:00/0000:00:14.0/usb1/1-2" = Some "" /\
  on_uevent None "remove@/devices/pci0000:00/0000:00:14.0/usb1/1-2"
      (listening_state ["3"] []) =
    (Ok tt, listening_state ["3"] []).
Proof.
  destruct (empty_identifier_ignored ["3"] [] None
              "remove@/devices/pci0000:00/0000:00:14.0/usb1/1-2") as [A B].
  - repeat constructor.
  - split.
    + apply A. intros i.
      apply (index_correct3 0 i "event"); [reflexivity | discriminate | lia].
    + apply B. reflexivity.
Defined.

Lemma action_classification_witness :
  device_state "change@/devices/x/input/input9/event3" = 0 /\
  on_uevent None "change@/devices/x/input/input9/event3" (listening_state ["3"] []) =
    (Ok tt, listening_state ["3"] []).
Proof.
  split; [reflexivity|].
  apply (action_classification "change@/devices/x/input/input9/event3").
  reflexivity.
Defined.

Lemma enumeration_erase_in_bounds_witness :
  Forall (fun d =>
            exists id,
              get_event_id (c_str (grep_line d)) = Some id /\
              id <> "" /\
              0 <= usub (size id) 1 < size id /\
              erase id (usub (size id) 1) = Some d) ["3"; "12"] /\
  outcome (start_exists_device (Some (grep_output ["3"; "12"]))) init_state = Ok tt.
Proof.
  apply (enumeration_erase_in_bounds ["3"; "12"] init_state).
  repeat constructor.
Defined.

(** A line without the token leaves [get_event_id] empty, and the
    position [size() - 1] wraps to [npos]: [erase] throws. *)
Example enumeration_line_without_token :
  start_exists_device (Some ("Handlers" ++ String newline "")) init_state =
    (Crash OutOfRange,
     mkState [] [Popen cmd1 OpenPipe; Feof OpenPipe; Fgets OpenPipe]).
Proof. reflexivity. Qed.

(** A last line that lacks its newline loses its digit instead. *)
Example enumeration_line_without_newline :
  all_threads (exec (start_exists_device (Some "event3")) init_state) =
    [mkTask "" true].
Proof. reflexivity. Qed.

(** ** Further properties: [get_event_id] *)

Lemma substring_skip (p s : string) (n m : nat) :
  substring (String.length p + n) m (p ++ s) = substring n m s.
Proof. induction p as [|c p IH]; simpl; auto. Qed.

Lemma substring_app_more (a b : string) (k : nat) :
  substring 0 (String.length a + k) (a ++ b) = a ++ substring 0 k b.
Proof. induction a as [|c a IH]; simpl; [reflexivity | now rewrite IH]. Qed.

Lemma index_skip (p pat s : string) :
  String.index (String.length p) pat (p ++ s) =
  match String.index 0 pat s with
  | Some k => Some (String.length p + k)%nat
  | None => None
  end.
Proof.
  induction p as [|c p IH].
  - cbn [String.length append]. now destruct (String.index 0 pat s).
  - cbn [String.length append String.index]. rewrite IH.
    now destruct (String.index 0 pat s).
Qed.

Lemma index_char_first (a : ascii) (s r : string) :
  avoids a s = true ->
  String.index 0 (String a "") (s ++ String a r) = Some (String.length s).
Proof.
  induction s as [|c s IH]; intros H.
  - cbn [append String.index]. rewrite prefix_cons, Ascii.eqb_refl, prefix_nil.
    reflexivity.
  - simpl in H. apply andb_prop in H as [Hc Hs].
    cbn [append String.index String.length].
    rewrite prefix_cons, Ascii.eqb_sym.
    destruct (Ascii.eqb c a); [discriminate|]. now rewrite (IH Hs).
Qed.

(** X1.  On a buffer that holds the token, [pos + 5] and
    [pos_stop - pos - 1] stay in range: the separator found lies behind the
    token and inside the buffer, [substr] does not throw, and the identifier
    starts right behind the token and is as long as the smaller of
    [pos_stop - pos - 1] and what is left of the buffer. *)
Theorem get_event_id_in_range (buf : string) (i : nat) :
  size buf < npos ->
  String.index 0 "event" buf = Some i ->
  let stop := match String.index i "/" buf with
              | Some j => j
              | None => String.length buf
              end in
  (i + 5 <= stop <= String.length buf)%nat /\
  exists id,
    get_event_id buf = Some id /\
    id = substring (i + 5) (stop - i - 1) buf /\
    String.length id = Nat.min (stop - i - 1) (String.length buf - (i + 5)).
Proof.
  intros Hsz Hi stop.
  destruct (get_event_id_value buf i Hsz Hi) as [B E]. fold stop in B, E.
  split; [exact B|]. eexists. split; [exact E|]. split; [reflexivity|].
  apply substring_length.
Qed.

(** X2.  When the first occurrence of the token is followed by no
    separator, the identifier is all that follows the token: the device path
    of a kernel notification ends in [eventN], and the identifier is [N]. *)
Theorem get_event_id_path_end (pre id : string) :
  size (pre ++ "event" ++ id) < npos ->
  String.index 0 "event" (pre ++ "event" ++ id) = Some (String.length pre) ->
  avoids "/" id = true ->
  get_event_id (pre ++ "event" ++ id) = Some id.
Proof.
  intros Hsz Hi Hid.
  destruct (get_event_id_value _ _ Hsz Hi) as [_ E]. rewrite E. clear E.
  rewrite index_skip.
  replace (String.index 0 "/" ("event" ++ id)) with (@None nat).
  2:{ symmetry. apply index_avoids. rewrite avoids_app, Hid. reflexivity. }
  rewrite substring_skip. rewrite !length_append. cbn [String.length append].
  cbn [substring]. rewrite substring_all by lia. reflexivity.
Qed.

(** X3.  When the first occurrence of the token is followed by a
    separator, the identifier is the text up to the separator, the separator
    itself and up to three characters behind it. *)
Theorem get_event_id_past_separator (pre id rest : string) :
  size (pre ++ "event" ++ id ++ String "/" rest) < npos ->
  String.index 0 "event" (pre ++ "event" ++ id ++ String "/" rest)
    = Some (String.length pre) ->
  avoids "/" id = true ->
  get_event_id (pre ++ "event" ++ id ++ String "/" rest) =
    Some (id ++ String "/" (substring 0 3 rest)).
Proof.
  intros Hsz Hi Hid.
  destruct (get_event_id_value _ _ Hsz Hi) as [_ E]. rewrite E. clear E.
  rewrite index_skip.
  replace ("event" ++ id ++ String "/" rest)
    with (("event" ++ id) ++ String "/" rest) by apply append_assoc.
  rewrite index_char_first by (rewrite avoids_app, Hid; reflexivity).
  rewrite substring_skip, length_append. cbn [String.length].
  rewrite append_assoc. cbn [append substring].
  replace (String.length pre + (5 + String.length id) - String.length pre - 1)%nat
    with (String.length id + 4)%nat by lia.
  rewrite substring_app_more. reflexivity.
Qed.

Lemma get_event_id_in_range_witness :
  let buf := "add@/devices/platform/input/input9/event3/uevent" in
  let stop := match String.index 35 "/" buf with
              | Some j => j
              | None => String.length buf
              end in
  (35 + 5 <= stop <= String.length buf)%nat /\
  exists id,
    get_event_id buf = Some id /\
    id = substring (35 + 5) (stop - 35 - 1) buf /\
    String.length id = Nat.min (stop - 35 - 1) (String.length buf - (35 + 5)).
Proof.
  apply (get_event_id_in_range
           "add@/devices/platform/input/input9/event3/uevent" 35).
  - reflexivity.
  - reflexivity.
Defined.

Lemma get_event_id_path_end_witness :
  get_event_id ("add@/devices/platform/input/input9/" ++ "event" ++ "12")
    = Some "12".
Proof.
  apply (get_event_id_path_end "add@/devices/platform/input/input9/" "12").
  - reflexivity.
  - reflexivity.
  - reflexivity.
Defined.

Lemma get_event_id_past_separator_witness :
  get_event_id ("add@/devices/platform/input/input9/" ++ "event" ++ "12" ++
                String "/" "uevent")
    = Some ("12" ++ String "/" (substring 0 3 "uevent")).
Proof.
  apply (get_event_id_past_separator
           "add@/devices/platform/input/input9/" "12" "uevent").
  - reflexivity.
  - reflexivity.
  - reflexivity.
Defined.

(** ** Further properties: the socket and the classifier *)

(** X4.  [init_socket] answers -1 when [socket] or [bind] failed and the
    descriptor of [socket] otherwise; it closes that descriptor exactly when
    [bind] failed on it, and never touches the threads. *)
Theorem init_socket_result (socket_ret bind_ret : Z) (st : State) :
  exists tr,
    init_socket socket_ret bind_ret st =
      (Ok (if (socket_ret <? 0) || (bind_ret <? 0) then -1 else socket_ret),
       mkState (all_threads st) (trace st ++ tr)) /\
    filter is_close tr =
      if (0 <=? socket_ret) && (bind_ret <? 0) then [Close socket_ret] else [].
Proof.
  unfold init_socket, cout.
  destruct (Z.ltb_spec socket_ret 0) as [Hs|Hs].
  - exists [Socket socket_ret; Cout "init socket error"].
    replace (0 <=? socket_ret) with false by (symmetry; apply Z.leb_gt; lia).
    split; [|reflexivity].
    unfold bind, emit, ret. cbn [all_threads trace orb].
    now rewrite <- !app_assoc.
  - replace (0 <=? socket_ret) with true by (symmetry; apply Z.leb_le; lia).
    unfold bind at 1. cbn [emit].
    unfold bind at 1. cbn [emit all_threads trace orb andb].
    destruct (bind_ret <? 0) eqn:Hb.
    + exists [Socket socket_ret; Bind bind_ret;
              Cout "init socket bind error occured"; Close socket_ret].
      split; [|reflexivity].
      unfold bind, emit, ret. cbn [all_threads trace].
      now rewrite <- !app_assoc.
    + exists [Socket socket_ret; Bind bind_ret].
      split; [|reflexivity].
      unfold ret. now rewrite <- !app_assoc.
Qed.

Lemma is_keyboard_value (probe : option string) (event_id : string) (st : State) :
  exists tr,
    is_keyboard probe event_id st =
      (Ok match event_id, probe with
          | String _ _, Some (String _ _) => true
          | _, _ => false
          end,
       mkState (all_threads st) (trace st ++ tr)) /\
    pipes_closed false tr = true /\
    started tr = [] /\ joined tr = [] /\
    (event_id = "" -> tr = []).
Proof.
  unfold is_keyboard. destruct event_id as [|c id]; cbn [empty].
  - exists []. rewrite app_nil_r. destruct st. repeat split.
  - destruct probe as [[|o out]|].
    + exists [Popen (cmd2 ++ String c id) OpenPipe; Fgets OpenPipe; Pclose OpenPipe].
      unfold fgets, bind, emit, ret. cbn [data all_threads trace].
      rewrite <- !app_assoc. repeat split; discriminate.
    + exists [Popen (cmd2 ++ String c id) OpenPipe; Fgets OpenPipe; Pclose OpenPipe].
      unfold fgets. cbn [data].
      destruct (read_line (8 - 1) (String o out)) as [[l r] e].
      unfold bind, emit, ret. cbn [all_threads trace].
      rewrite <- !app_assoc. repeat split; discriminate.
    + exists [Popen (cmd2 ++ String c id) NullHandle; Cout "error occured"].
      unfold bind, cout, emit, ret. cbn [all_threads trace].
      rewrite <- !app_assoc. repeat split; discriminate.
Qed.

(** X5.  [is_keyboard] answers true exactly when the event id is not
    empty and the probe command printed at least one character, whatever the
    character; for the empty id it runs no command, and every pipe it opens
    it closes. *)
Theorem is_keyboard_answer (probe : option string) (event_id : string) (st : State) :
  exists tr,
    is_keyboard probe event_id st =
      (Ok match event_id, probe with
          | String _ _, Some (String _ _) => true
          | _, _ => false
          end,
       mkState (all_threads st) (trace st ++ tr)) /\
    pipes_closed false tr = true /\
    (event_id = "" -> tr = []).
Proof.
  destruct (is_keyboard_value probe event_id st) as (tr & E & P & _ & _ & N).
  exists tr. auto.
Qed.

(** ** Further properties: one notification *)

Lemma on_uevent_remove (probe : option string) (buf id : string) (st : State) :
  device_state buf = -1 -> get_event_id buf = Some id ->
  on_uevent probe buf st =
    if (live_tasks id st =? 0)%nat then (Ok tt, st) else del_event_id id st.
Proof.
  intros S E. destruct (on_uevent_unfold probe buf st) as (id' & E' & ->).
  assert (id' = id) by congruence. subst id'. rewrite S. cbn [Z.eqb Pos.eqb].
  now destruct (live_tasks id st =? 0)%nat.
Qed.

Lemma on_uevent_add (probe : option string) (buf id : string) (st : State) :
  device_state buf = 1 -> get_event_id buf = Some id ->
  on_uevent probe buf st =
    if (live_tasks id st =? 0)%nat then
      (keyboard <- is_keyboard probe id;;
       if keyboard then spawn id else ret tt) st
    else (Ok tt, st).
Proof.
  intros S E. destruct (on_uevent_unfold probe buf st) as (id' & E' & ->).
  assert (id' = id) by congruence. subst id'. rewrite S. cbn [Z.eqb Pos.eqb].
  now destruct (live_tasks id st =? 0)%nat.
Qed.

Lemma live_tasks_after_remove (probe : option string) (buf id : string) (st : State) :
  device_state buf = -1 -> get_event_id buf = Some id ->
  live_tasks id (exec (on_uevent probe buf) st) = 0%nat.
Proof.
  intros S E. unfold exec. rewrite (on_uevent_remove probe buf id st S E).
  destruct (Nat.eqb_spec (live_tasks id st) 0) as [L|L]; [exact L|].
  unfold live_tasks. cbn. apply filter_live_cancel_same.
Qed.

(** X6.  A remove notification for an event id with a registered task
    tells that task to stop: no live task is left for the id, the tasks of
    the other ids are as before, and no thread leaves [all_threads]. *)
Theorem remove_registered_cancels
    (probe : option string) (buf id : string) (st : State) :
  device_state buf = -1 -> get_event_id buf = Some id ->
  live_tasks id st <> 0%nat ->
  let st' := exec (on_uevent probe buf) st in
  outcome (on_uevent probe buf) st = Ok tt /\
  live_tasks id st' = 0%nat /\
  (forall i, i <> id -> live_tasks i st' = live_tasks i st) /\
  map task_id (all_threads st') = map task_id (all_threads st) /\
  trace st' = (trace st ++ [DelEventId id])%list.
Proof.
  intros S E L st'. subst st'. unfold exec, outcome.
  rewrite (on_uevent_remove probe buf id st S E).
  apply Nat.eqb_neq in L. rewrite L. cbn.
  split; [reflexivity|]. split; [apply filter_live_cancel_same|].
  split; [intros i N; unfold live_tasks; cbn;
          now apply filter_live_cancel_other|].
  split; [|reflexivity].
  rewrite map_map. apply map_ext. intros t. unfold cancel.
  now destruct (task_id t =? id)%string.
Qed.

(** X7.  An add notification starts one task when no live task is
    registered for its event id, the id is not empty and the probe command
    printed something, and starts none otherwise; for a registered id the
    classifier is not run. *)
Theorem add_notification_effect
    (probe : option string) (buf id : string) (st : State) :
  device_state buf = 1 -> get_event_id buf = Some id ->
  let st' := exec (on_uevent probe buf) st in
  outcome (on_uevent probe buf) st = Ok tt /\
  all_threads st' =
    (all_threads st ++
     if (live_tasks id st =? 0)%nat &&
        match id, probe with
        | String _ _, Some (String _ _) => true
        | _, _ => false
        end
     then [mkTask id true] else [])%list /\
  (live_tasks id st <> 0%nat -> st' = st).
Proof.
  intros S E st'. subst st'. unfold exec, outcome.
  rewrite (on_uevent_add probe buf id st S E).
  destruct (Nat.eqb_spec (live_tasks id st) 0) as [L|L]; cbn [andb].
  - destruct (is_keyboard_value probe id st) as (tr & K & _).
    unfold bind. rewrite K.
    destruct (match id, probe with
              | String _ _, Some (String _ _) => true
              | _, _ => false
              end); cbn.
    + split; [reflexivity|]. split; [reflexivity | contradiction].
    + rewrite app_nil_r. split; [reflexivity|].
      split; [reflexivity | contradiction].
  - cbn. rewrite app_nil_r. auto.
Qed.

(** X8.  A remove notification for an event id followed by an add
    notification for it, classified as a keyboard, leaves exactly one live
    task for the id, whatever was registered before; so does the sequence
    add, remove, add. *)
Theorem add_remove_add_one_task
    (p1 p2 p3 : option string) (a r id : string) (c : ascii) (out : string)
    (st : State) :
  device_state a = 1 -> device_state r = -1 ->
  get_event_id a = Some id -> get_event_id r = Some id ->
  id <> "" -> p3 = Some (String c out) ->
  let st1 := exec (on_uevent p1 a) st in
  let st2 := exec (on_uevent p2 r) st1 in
  let st3 := exec (on_uevent p3 a) st2 in
  live_tasks id st2 = 0%nat /\ live_tasks id st3 = 1%nat.
Proof.
  intros Sa Sr Ea Er Hid Hp st1 st2 st3.
  assert (L2 : live_tasks id st2 = 0%nat)
    by (subst st2; now apply live_tasks_after_remove).
  split; [exact L2|]. subst st3. unfold exec.
  rewrite (on_uevent_add p3 a id st2 Sa Ea), L2. cbn [Nat.eqb].
  destruct (is_keyboard_value p3 id st2) as (tr & K & _).
  unfold bind. rewrite K. subst p3.
  destruct id as [|c' id']; [congruence|]. cbn.
  unfold live_tasks. cbn [all_threads].
  rewrite live_tasks_spawn, String.eqb_refl.
  unfold live_tasks in L2. rewrite L2. reflexivity.
Qed.

(** ** Further properties: the listening loop *)

(** X9.  Turns on which [select] failed, timed out or reported another
    descriptor do nothing but call [select]: no [recv], no change of the
    threads. *)
Theorem idle_turns_only_select (ticks : list Tick) (st : State) :
  forallb idle ticks = true ->
  listen ticks st =
    (Ok tt,
     mkState (all_threads st) (trace st ++ repeat Select (List.length ticks))).
Proof.
  revert st. induction ticks as [|t rest IH]; intros st H.
  - cbn. rewrite app_nil_r. now destruct st.
  - cbn [forallb] in H. apply andb_prop in H as [Ht Hr].
    cbn [listen]. unfold bind at 1. cbn [emit].
    unfold idle in Ht.
    destruct (select_ret t <? 0);
      [|destruct (negb ((0 <? select_ret t) && fd_isset t)); [|discriminate]];
      rewrite (IH _ Hr); cbn [all_threads trace List.length repeat];
      now rewrite <- app_assoc.
Qed.

Lemma idle_turns_only_select_witness :
  listen [mkTick (-1) false None None; mkTick 0 false None None;
          mkTick 1 false None None] init_state =
    (Ok tt, mkState [] [Select; Select; Select]).
Proof.
  apply (idle_turns_only_select
           [mkTick (-1) false None None; mkTick 0 false None None;
            mkTick 1 false None None] init_state).
  reflexivity.
Defined.

Lemma c_str_header (h r : string) :
  forall n, avoids zero h = true -> (String.length h < n)%nat ->
    c_str (substring 0 n (h ++ String zero r)) = h.
Proof.
  induction h as [|c h IH]; intros [|n] H L; simpl in L; try lia.
  - cbn [append substring c_str]. now rewrite Ascii.eqb_refl.
  - simpl in H. apply andb_prop in H as [Hc Hh].
    cbn [append substring c_str].
    destruct (Ascii.eqb c zero); [discriminate|].
    rewrite IH by (assumption || lia). reflexivity.
Qed.

(** X10.  The handler is given the datagram up to its first NUL: of a
    kernel notification, whose fields are separated by NUL, only the header
    [action@devpath] is read, and a datagram shorter than the array with no
    NUL is read whole. *)
Theorem uevent_string_header (hdr rest : string) (st : State) :
  avoids zero hdr = true ->
  (String.length hdr < UEVENT_BUFFER_SIZE)%nat ->
  uevent_string (hdr ++ String zero rest) st = (Ok hdr, st) /\
  uevent_string hdr st = (Ok hdr, st).
Proof.
  intros H L. unfold uevent_string. split.
  - rewrite c_str_header by assumption.
    apply Nat.ltb_lt in L. now rewrite L.
  - rewrite substring_all by lia. rewrite c_str_avoids by exact H.
    apply Nat.ltb_lt in L. now rewrite L.
Qed.

Lemma uevent_string_header_witness :
  uevent_string ("add@/devices/platform/input/input9/event3" ++
                 String zero "ACTION=add") init_state =
    (Ok "add@/devices/platform/input/input9/event3", init_state) /\
  uevent_string "add@/devices/platform/input/input9/event3" init_state =
    (Ok "add@/devices/platform/input/input9/event3", init_state).
Proof.
  apply (uevent_string_header "add@/devices/platform/input/input9/event3"
           "ACTION=add" init_state).
  - reflexivity.
  - unfold UEVENT_BUFFER_SIZE. cbn [String.length]. lia.
Defined.

Lemma remove_registered_cancels_witness :
  let buf := "remove@/devices/platform/input/input9/event3" in
  let st := listening_state ["3"; "4"] [] in
  let st' := exec (on_uevent None buf) st in
  outcome (on_uevent None buf) st = Ok tt /\
  live_tasks "3" st' = 0%nat /\
  (forall i, i <> "3" -> live_tasks i st' = live_tasks i st) /\
  map task_id (all_threads st') = map task_id (all_threads st) /\
  trace st' = (trace st ++ [DelEventId "3"])%list.
Proof.
  apply (remove_registered_cancels None
           "remove@/devices/platform/input/input9/event3" "3"
           (listening_state ["3"; "4"] [])).
  - reflexivity.
  - reflexivity.
  - vm_compute. discriminate.
Defined.

Lemma add_notification_effect_witness :
  let buf := "add@/devices/platform/input/input9/event5" in
  let probe := Some "H: Handlers=sysrq kbd event5 leds" in
  let st := listening_state ["3"] [] in
  let st' := exec (on_uevent probe buf) st in
  outcome (on_uevent probe buf) st = Ok tt /\
  all_threads st' =
    (all_threads st ++
     if (live_tasks "5" st =? 0)%nat &&
        match "5", probe with
        | String _ _, Some (String _ _) => true
        | _, _ => false
        end
     then [mkTask "5" true] else [])%list /\
  (live_tasks "5" st <> 0%nat -> st' = st).
Proof.
  apply (add_notification_effect (Some "H: Handlers=sysrq kbd event5 leds")
           "add@/devices/platform/input/input9/event5" "5"
           (listening_state ["3"] [])).
  - reflexivity.
  - reflexivity.
Defined.

Lemma add_remove_add_one_task_witness :
  let a := "add@/devices/platform/input/input9/event5" in
  let r := "remove@/devices/platform/input/input9/event5" in
  let p := Some "H: Handlers=sysrq kbd event5 leds" in
  let st1 := exec (on_uevent p a) init_state in
  let st2 := exec (on_uevent None r) st1 in
  let st3 := exec (on_uevent p a) st2 in
  live_tasks "5" st2 = 0%nat /\ live_tasks "5" st3 = 1%nat.
Proof.
  apply (add_remove_add_one_task
           (Some "H: Handlers=sysrq kbd event5 leds") None
           (Some "H: Handlers=sysrq kbd event5 leds")
           "add@/devices/platform/input/input9/event5"
           "remove@/devices/platform/input/input9/event5" "5"
           "H" ": Handlers=sysrq kbd event5 leds" init_state).
  - reflexivity.
  - reflexivity.
  - reflexivity.
  - reflexivity.
  - discriminate.
  - reflexivity.
Defined.

(** ** Further properties: whole runs *)

Lemma init_socket_failed (socket_ret bind_ret : Z) (st : State) :
  socket_ret < 0 \/ bind_ret < 0 ->
  exists tr,
    init_socket socket_ret bind_ret st =
      (Ok (-1), mkState (all_threads st) (trace st ++ tr)) /\
    Forall (fun e => is_poll e = false /\ e <> ClearAll /\
                     forall id, e <> Join id) tr.
Proof.
  intros H. unfold init_socket, cout.
  destruct (Z.ltb_spec socket_ret 0) as [Hs|Hs].
  - exists [Socket socket_ret; Cout "init socket error"]. split.
    + unfold bind, emit, ret. cbn [all_threads trace].
      now rewrite <- !app_assoc.
    + repeat constructor; discriminate.
  - assert (Hb : (bind_ret <? 0) = true) by (apply Z.ltb_lt; lia).
    exists [Socket socket_ret; Bind bind_ret;
            Cout "init socket bind error occured"; Close socket_ret]. split.
    + unfold bind at 1. cbn [emit]. unfold bind at 1.
      cbn [emit all_threads trace]. rewrite Hb.
      unfold bind, emit, ret. cbn [all_threads trace].
      now rewrite <- !app_assoc.
    + repeat constructor; discriminate.
Qed.

(** X11.  When the notification channel cannot be set up, [device_detect]
    prints its message and returns without polling; the tasks started by the
    enumeration are neither told to stop nor joined. *)
Theorem device_detect_without_channel
    (enum : option string) (socket_ret bind_ret : Z) (ticks : list Tick)
    (st1 : State) :
  start_exists_device enum init_state = (Ok tt, st1) ->
  socket_ret < 0 \/ bind_ret < 0 ->
  let st' := exec (device_detect enum socket_ret bind_ret ticks) init_state in
  outcome (device_detect enum socket_ret bind_ret ticks) init_state = Ok tt /\
  all_threads st' = all_threads st1 /\
  exists tr,
    trace st' = (trace st1 ++ tr ++ [Cout "init error"])%list /\
    Forall (fun e => is_poll e = false /\ e <> ClearAll /\
                     forall id, e <> Join id) tr.
Proof.
  intros S H st'. subst st'.
  destruct (init_socket_failed socket_ret bind_ret st1 H) as (tr & I & F).
  assert (R : device_detect enum socket_ret bind_ret ticks init_state =
              (Ok tt, mkState (all_threads st1)
                              ((trace st1 ++ tr) ++ [Cout "init error"]))).
  { unfold device_detect. unfold bind at 1. rewrite S.
    unfold bind at 1. rewrite I. change (-1 <? 0) with true. reflexivity. }
  unfold outcome, exec. rewrite R. cbn [fst snd all_threads trace].
  split; [reflexivity|]. split; [reflexivity|].
  exists tr. split; [now rewrite <- app_assoc | exact F].
Qed.

(** The end of a run that went through the listening loop. *)
Lemma shutdown_trace
    (enum : option string) (socket_ret bind_ret : Z) (ticks : list Tick)
    (st' : State) :
  0 <= socket_ret -> 0 <= bind_ret ->
  device_detect enum socket_ret bind_ret ticks init_state = (Ok tt, st') ->
  exists st1 st3,
    start_exists_device enum init_state = (Ok tt, st1) /\
    listen ticks (mkState (all_threads st1)
                          (trace st1 ++ [Socket socket_ret; Bind bind_ret])) =
      (Ok tt, st3) /\
    all_threads st' = map (fun t => mkTask (task_id t) false) (all_threads st3) /\
    trace st' =
      (trace st3 ++ ClearAll ::
         (if 0 <? socket_ret then [Close socket_ret] else []) ++
         map (fun t => Join (task_id t)) (all_threads st'))%list.
Proof.
  intros Hs Hb. unfold device_detect.
  unfold bind at 1.
  destruct (start_exists_device enum init_state) as [[[]|f] st1];
    [|discriminate].
  unfold bind at 1. rewrite init_socket_ok by lia.
  replace (socket_ret <? 0) with false by (symmetry; apply Z.ltb_ge; lia).
  unfold bind at 1.
  destruct (listen ticks _) as [[[]|f] st3] eqn:L3; [|discriminate].
  unfold bind at 1. cbn [clear_all_key_detect_threads].
  unfold bind at 1.
  destruct (0 <? socket_ret); unfold emit, ret, join_all;
    cbn [all_threads trace]; intros R; injection R as <-;
    cbn [all_threads trace]; exists st1, st3;
    (split; [reflexivity|]); (split; [exact L3|]);
    (split; [reflexivity|]); rewrite <- !app_assoc; reflexivity.
Qed.

Lemma joined_app (a b : list event) :
  joined (a ++ b) = (joined a ++ joined b)%list.
Proof.
  induction a as [|e a IH]; [reflexivity|].
  destruct e; cbn; rewrite ?IH; reflexivity.
Qed.

Lemma started_app (a b : list event) :
  started (a ++ b) = (started a ++ started b)%list.
Proof.
  induction a as [|e a IH]; [reflexivity|].
  destruct e; cbn; rewrite ?IH; reflexivity.
Qed.

Lemma joined_joins (l : list MonitoringTask) :
  joined (map (fun t => Join (task_id t)) l) = map task_id l.
Proof. induction l as [|t l IH]; cbn; [reflexivity | now rewrite IH]. Qed.

Lemma started_joins (l : list MonitoringTask) :
  started (map (fun t => Join (task_id t)) l) = [].
Proof. induction l as [|t l IH]; cbn; [reflexivity | exact IH]. Qed.

Lemma joined_no_shutdown (tr : list event) :
  Forall (fun e => is_shutdown e = false) tr -> joined tr = [].
Proof.
  induction 1 as [|e l He _ IH]; [reflexivity|].
  destruct e; cbn; try exact IH. discriminate.
Qed.

(** X12.  On descriptor 0 the run polls and shuts down like on any other,
    but the guard [sock_fd > 0] skips [close]: the descriptor is never
    closed. *)
Theorem descriptor_zero_never_closed
    (enum : option string) (bind_ret : Z) (ticks : list Tick) (st' : State) :
  0 <= bind_ret ->
  device_detect enum 0 bind_ret ticks init_state = (Ok tt, st') ->
  Forall (fun e => is_close e = false) (trace st') /\
  In ClearAll (trace st') /\
  joined (trace st') = map task_id (all_threads st').
Proof.
  intros Hb R.
  destruct (shutdown_trace enum 0 bind_ret ticks st' ltac:(lia) Hb R)
    as (st1 & st3 & S1 & L3 & T & Tr).
  cbn [Z.ltb Z.compare app] in Tr.
  destruct (emits_start_exists_device enum init_state) as (t1 & E1 & F1).
  unfold exec in E1. rewrite S1 in E1. cbn [snd init_state trace app] in E1.
  destruct (emits_listen ticks
              (mkState (all_threads st1) (trace st1 ++ [Socket 0; Bind bind_ret])))
    as (t3 & E3 & F3).
  unfold exec in E3. rewrite L3 in E3. cbn [snd trace] in E3.
  assert (P : Forall (fun e => is_shutdown e = false) (trace st3)).
  { rewrite E3, E1. rewrite !Forall_app. repeat split.
    - eapply Forall_impl; [|exact F1]. now intros e [_ H].
    - repeat constructor.
    - eapply Forall_impl; [|exact F3]. now intros e [H _]. }
  rewrite Tr. split; [|split].
  - apply Forall_app. split.
    + eapply Forall_impl; [|exact P]. intros e He. now destruct e.
    + constructor; [reflexivity|]. apply Forall_map, Forall_forall. reflexivity.
  - apply in_or_app. right. now left.
  - rewrite joined_app. cbn [joined].
    now rewrite (joined_no_shutdown _ P), joined_joins.
Qed.

Lemma descriptor_zero_never_closed_witness :
  let st' :=
    exec (device_detect (Some (grep_output ["3"])) 0 0
            [mkTick 1 true (Some "remove@/devices/x/input/input9/event3") None])
         init_state in
  Forall (fun e => is_close e = false) (trace st') /\
  In ClearAll (trace st') /\
  joined (trace st') = map task_id (all_threads st').
Proof.
  apply (descriptor_zero_never_closed (Some (grep_output ["3"])) 0
           [mkTick 1 true (Some "remove@/devices/x/input/input9/event3") None]).
  - lia.
  - vm_compute. reflexivity.
Defined.

Lemma device_detect_without_channel_witness :
  let st1 := exec (start_exists_device (Some (grep_output ["3"]))) init_state in
  let st' := exec (device_detect (Some (grep_output ["3"])) 3 (-1) []) init_state in
  outcome (device_detect (Some (grep_output ["3"])) 3 (-1) []) init_state = Ok tt /\
  all_threads st' = all_threads st1 /\
  exists tr,
    trace st' = (trace st1 ++ tr ++ [Cout "init error"])%list /\
    Forall (fun e => is_poll e = false /\ e <> ClearAll /\
                     forall id, e <> Join id) tr.
Proof.
  apply (device_detect_without_channel (Some (grep_output ["3"])) 3 (-1) []).
  - vm_compute. reflexivity.
  - right. lia.
Defined.

(** ** Further properties: threads started and joined *)

Lemma preserves_ret (J : State -> Prop) {A} (a : A) : preserves J (ret a).
Proof. intros st H. exact H. Qed.

Lemma preserves_throw (J : State -> Prop) {A} (f : fault) :
  preserves J (@throw A f).
Proof. intros st H. exact H. Qed.

Lemma preserves_or_throw (J : State -> Prop) {A} (o : option A) :
  preserves J (or_throw o).
Proof. destruct o; [apply preserves_ret | apply preserves_throw]. Qed.

Lemma preserves_bind (J : State -> Prop) {A B} (m : M A) (k : A -> M B) :
  preserves J m -> (forall a, preserves J (k a)) -> preserves J (bind m k).
Proof.
  intros Hm Hk st H. rewrite exec_bind.
  specialize (Hm st H). unfold exec in Hm.
  destruct (m st) as [[a|f] st']; simpl in Hm; [now apply Hk | exact Hm].
Qed.

Lemma recorded_emit (e : event) : started [e] = [] -> preserves recorded (emit e).
Proof.
  intros He st H. unfold recorded, exec, emit in *. cbn [snd trace all_threads].
  now rewrite started_app, He, app_nil_r.
Qed.

Lemma recorded_spawn (id : string) : preserves recorded (spawn id).
Proof.
  intros st H. unfold recorded, exec, spawn in *. cbn [snd trace all_threads].
  rewrite started_app, map_app, H. reflexivity.
Qed.

Lemma recorded_del_event_id (id : string) : preserves recorded (del_event_id id).
Proof.
  intros st H. unfold recorded, exec, del_event_id in *.
  cbn [snd trace all_threads].
  rewrite started_app, H, app_nil_r, map_map. apply map_ext.
  intros t. unfold cancel. now destruct (task_id t =? id)%string.
Qed.

Lemma recorded_is_keyboard (probe : option string) (id : string) :
  preserves recorded (is_keyboard probe id).
Proof.
  intros st H. destruct (is_keyboard_value probe id st) as (tr & K & _ & S & _).
  unfold recorded, exec in *. rewrite K. cbn [snd trace all_threads].
  now rewrite started_app, S, app_nil_r.
Qed.

Lemma recorded_on_uevent (probe : option string) (buf : string) :
  preserves recorded (on_uevent probe buf).
Proof.
  unfold on_uevent. apply preserves_bind; [apply preserves_or_throw|].
  intros id. destruct (device_state buf =? 1).
  - apply preserves_bind; [intros st H; exact H|].
    intros [|]; [apply preserves_ret|].
    apply preserves_bind; [apply recorded_is_keyboard|].
    intros [|]; [apply recorded_spawn | apply preserves_ret].
  - destruct (device_state buf =? -1); [|apply preserves_ret].
    apply preserves_bind; [intros st H; exact H|].
    intros [|]; [apply recorded_del_event_id | apply preserves_ret].
Qed.

Lemma recorded_listen (ticks : list Tick) : preserves recorded (listen ticks).
Proof.
  induction ticks as [|t rest IH]; cbn [listen]; [apply preserves_ret|].
  apply preserves_bind; [now apply recorded_emit|]. intros _.
  destruct (select_ret t <? 0); [exact IH|].
  destruct (negb _); [exact IH|].
  apply preserves_bind; [now apply recorded_emit|]. intros _.
  destruct (received t) as [bytes|]; [|exact IH].
  apply preserves_bind.
  { unfold uevent_string.
    destruct (_ <? _)%nat; [apply preserves_ret | apply preserves_throw]. }
  intros buf. apply preserves_bind; [apply recorded_on_uevent|].
  intros _. exact IH.
Qed.

Lemma recorded_enum_loop (fuel : nat) :
  forall pip, preserves recorded (enum_loop fuel pip).
Proof.
  induction fuel as [|fuel IH]; intros pip; cbn [enum_loop];
    [apply preserves_throw|].
  destruct pip as [f|].
  - apply preserves_bind; [now apply recorded_emit|]. intros _.
    destruct (eof f); [apply preserves_ret|].
    destruct (fgets 64 f) as [line f'].
    apply preserves_bind; [now apply recorded_emit|]. intros _.
    destruct line as [buf|]; [|apply IH].
    apply preserves_bind; [apply preserves_or_throw|]. intros id.
    apply preserves_bind; [apply preserves_or_throw|]. intros id'.
    apply preserves_bind; [apply recorded_spawn | intros _; apply IH].
  - apply preserves_bind; [now apply recorded_emit|].
    intros _. apply preserves_throw.
Qed.

Lemma recorded_start_exists_device (enum : option string) :
  preserves recorded (start_exists_device enum).
Proof.
  unfold start_exists_device, cout. destruct enum as [out|].
  - apply preserves_bind; [now apply recorded_emit|]. intros _.
    apply preserves_bind; [apply recorded_enum_loop|].
    intros _. now apply recorded_emit.
  - apply preserves_bind; [now apply recorded_emit|]. intros _.
    apply preserves_bind; [now apply recorded_emit|]. intros _.
    apply preserves_bind; [apply recorded_enum_loop|].
    intros _. now apply recorded_emit.
Qed.

Lemma listening_trace_no_shutdown
    (enum : option string) (socket_ret bind_ret : Z) (ticks : list Tick)
    (st1 st3 : State) :
  start_exists_device enum init_state = (Ok tt, st1) ->
  listen ticks (mkState (all_threads st1)
                        (trace st1 ++ [Socket socket_ret; Bind bind_ret])) =
    (Ok tt, st3) ->
  Forall (fun e => is_shutdown e = false) (trace st3) /\ recorded st3.
Proof.
  intros S1 L3. split.
  - destruct (emits_start_exists_device enum init_state) as (t1 & E1 & F1).
    unfold exec in E1. rewrite S1 in E1. cbn [snd init_state trace app] in E1.
    destruct (emits_listen ticks
                (mkState (all_threads st1)
                         (trace st1 ++ [Socket socket_ret; Bind bind_ret])))
      as (t3 & E3 & F3).
    unfold exec in E3. rewrite L3 in E3. cbn [snd trace] in E3.
    rewrite E3, E1. rewrite !Forall_app. repeat split.
    + eapply Forall_impl; [|exact F1]. now intros e [_ H].
    + repeat constructor.
    + eapply Forall_impl; [|exact F3]. now intros e [H _].
  - pose proof (recorded_start_exists_device enum init_state eq_refl) as R1.
    unfold exec in R1. rewrite S1 in R1. cbn [snd] in R1.
    pose proof (recorded_listen ticks
                  (mkState (all_threads st1)
                           (trace st1 ++ [Socket socket_ret; Bind bind_ret])))
      as R3.
    unfold exec in R3. rewrite L3 in R3. cbn [snd] in R3. apply R3.
    unfold recorded in *. cbn [trace all_threads].
    now rewrite started_app, R1, app_nil_r.
Qed.

(** X13.  A run that goes through the listening loop and returns joins
    every thread it started, by the enumeration or on a notification, once
    each and in the order it started them. *)
Theorem every_thread_joined_once
    (enum : option string) (socket_ret bind_ret : Z) (ticks : list Tick)
    (st' : State) :
  0 <= socket_ret -> 0 <= bind_ret ->
  device_detect enum socket_ret bind_ret ticks init_state = (Ok tt, st') ->
  joined (trace st') = started (trace st') /\
  started (trace st') = map task_id (all_threads st').
Proof.
  intros Hs Hb R.
  destruct (shutdown_trace enum socket_ret bind_ret ticks st' Hs Hb R)
    as (st1 & st3 & S1 & L3 & T & Tr).
  destruct (listening_trace_no_shutdown enum socket_ret bind_ret ticks
              st1 st3 S1 L3) as [P Rec].
  assert (Ids : map task_id (all_threads st') = map task_id (all_threads st3)).
  { rewrite T, map_map. reflexivity. }
  assert (St : started (trace st') = started (trace st3)).
  { rewrite Tr, started_app. cbn [started]. rewrite started_app, started_joins.
    destruct (0 <? socket_ret); cbn; now rewrite app_nil_r. }
  assert (Jo : joined (trace st') = map task_id (all_threads st')).
  { rewrite Tr at 1. rewrite joined_app, (joined_no_shutdown _ P).
    cbn [joined app]. rewrite joined_app, joined_joins.
    now destruct (0 <? socket_ret). }
  unfold recorded in Rec. split; congruence.
Qed.

Lemma every_thread_joined_once_witness :
  let st' :=
    exec (device_detect (Some (grep_output ["3"; "4"])) 3 0
            [mkTick 1 true (Some "add@/devices/x/input/input9/event5")
                    (Some "H: Handlers=sysrq kbd event5 leds");
             mkTick 1 true (Some "remove@/devices/x/input/input9/event3") None])
         init_state in
  joined (trace st') = started (trace st') /\
  started (trace st') = map task_id (all_threads st').
Proof.
  apply (every_thread_joined_once (Some (grep_output ["3"; "4"])) 3 0
           [mkTick 1 true (Some "add@/devices/x/input/input9/event5")
                   (Some "H: Handlers=sysrq kbd event5 leds");
            mkTick 1 true (Some "remove@/devices/x/input/input9/event3") None]).
  - lia.
  - lia.
  - vm_compute. reflexivity.
Defined.

(** ** Further properties: ways a run can end *)



(** X15.  A datagram that fills the array, with no NUL among its first
    512 bytes, leaves the array without terminator: building the string
    reads past it. *)
Theorem full_datagram_overruns (bytes : string) (st : State) :
  (UEVENT_BUFFER_SIZE <= String.length bytes)%nat ->
  avoids zero (substring 0 UEVENT_BUFFER_SIZE bytes) = true ->
  uevent_string bytes st = (Crash BufferOverrun, st).
Proof.
  intros L H. unfold uevent_string. rewrite c_str_avoids by exact H.
  assert (E : String.length (substring 0 UEVENT_BUFFER_SIZE bytes)
              = UEVENT_BUFFER_SIZE).
  { rewrite substring_length. lia. }
  rewrite E, Nat.ltb_irrefl. reflexivity.
Qed.

(** X16.  In the enumeration loop a line without the token leaves the
    identifier empty, [size() - 1] wraps to [npos] and [erase] throws: the
    run dies of [std::out_of_range] before any task is started for the line
    or for those behind it. *)
Theorem enumeration_throws_without_token (l rest : string) (st : State) :
  avoids newline l = true -> avoids zero l = true ->
  (String.length l < 63)%nat ->
  (forall i, substring i 5 (l ++ String newline "") <> "event") ->
  start_exists_device (Some (l ++ String newline rest)) st =
    (Crash OutOfRange,
     mkState (all_threads st)
             (trace st ++ [Popen cmd1 OpenPipe; Feof OpenPipe; Fgets OpenPipe])).
Proof.
  intros Hn Hz Hl Ht. unfold start_exists_device.
  replace (enum_fuel (l ++ String newline rest))
    with (S (S (String.length (l ++ String newline rest))))
    by (unfold enum_fuel; lia).
  unfold bind at 1. cbn [emit enum_loop].
  unfold bind at 1. unfold bind at 1. cbn [emit eof].
  rewrite fgets_line by (assumption || (change (64 - 1)%nat with 63%nat; lia)).
  unfold bind at 1. cbn [emit all_threads trace].
  rewrite c_str_avoids by (rewrite avoids_app, Hz; reflexivity).
  rewrite (get_event_id_no_token _ Ht).
  unfold bind at 1. cbn [or_throw ret].
  change (erase "" (usub (size "") 1)) with (@None string).
  unfold bind at 1. cbn [or_throw throw].
  now rewrite <- !app_assoc.
Qed.

Lemma full_datagram_overruns_witness :
  uevent_string
    (String.concat "" (repeat "add@/devices/aa" 40)) init_state =
    (Crash BufferOverrun, init_state).
Proof.
  apply (full_datagram_overruns
           (String.concat "" (repeat "add@/devices/aa" 40)) init_state).
  - apply Nat.leb_le. vm_compute. reflexivity.
  - vm_compute. reflexivity.
Defined.

Lemma enumeration_throws_without_token_witness :
  start_exists_device
    (Some ("N: Name=keyboard" ++ String newline "event3")) init_state =
    (Crash OutOfRange,
     mkState [] [Popen cmd1 OpenPipe; Feof OpenPipe; Fgets OpenPipe]).
Proof.
  apply (enumeration_throws_without_token "N: Name=keyboard" "event3" init_state).
  - reflexivity.
  - reflexivity.
  - cbn [String.length]. lia.
  - intros i.
    apply (index_correct3 0 i "event"); [reflexivity | discriminate | lia].
Defined.



